(** * The development environment monitor ([src/monitor/core.py])

    A shallow embedding of [DevEnvironmentMonitor]: the four metric
    sources, the collector [get_all_metrics], the alert rules and the
    loop of [start_monitoring], followed by the properties of the
    specification that concern them.

    Python data is modelled as the code has it: a [float] is an IEEE 754
    binary64 number (Rocq's primitive floats), an [int] is a [Z], a [str]
    is a [string] read as a sequence of code points below 256, a [dict]
    with computed keys is a [gmap] (or an association list where the
    iteration order matters).  Logging and exceptions are threaded through
    a small monad; everything the program asks of its host (psutil, the
    thermal file, systemctl, the clock, [time.sleep]) is read from an
    environment record, one per tick. *)

From Stdlib Require Import ZArith NArith Floats Ascii String List Bool Lia.
From stdpp Require Import gmap strings list.

Set Warnings "-inexact-float".

Open Scope Z_scope.

(** ** Python builtins used by the monitor *)

Module Py.

(** Exceptions.  [KeyboardInterrupt] and [SystemExit] derive from
    [BaseException] only; every other class listed derives from
    [Exception]. *)
Inductive exn : Type :=
| KeyboardInterrupt
| SystemExit
| KeyError (key : string)
| ZeroDivisionError
| TypeError
| AttributeError
| ValueError
| OverflowError
| OSError (what : string)
| TimeoutExpired
| RuntimeError (what : string).

Definition is_Exception (e : exn) : bool :=
  match e with
  | KeyboardInterrupt | SystemExit => false
  | _ => true
  end.

(** What evaluating an expression gives: a value, or a raised exception. *)
Inductive result (A : Type) : Type :=
| Ok (a : A)
| Raise (e : exn).
Arguments Ok {A} a.
Arguments Raise {A} e.

(** A numeric value stored in a metrics dict: [float] or [int]. *)
Inductive pyval : Type :=
| PyFloat (f : float)
| PyInt (z : Z).

(** *** Correctly rounded conversion of a rational to binary64 *)

(** The double nearest to [n / d] (ties to even), signed by [neg]; an
    infinity when the quotient is out of range.  The quotient is taken
    with at least 64 significant bits and a sticky bit, then rounded
    once. *)
Definition nearest_float (neg : bool) (n d : positive) : float :=
  let k := Z.max 0 (64 + Z.log2 (Zpos d) - Z.log2 (Zpos n)) in
  let (a, r) := Z.div_eucl (Z.shiftl (Zpos n) k) (Zpos d) in
  let m := 2 * a + (if r =? 0 then 0 else 1) in
  SF2Prim (binary_normalize prec emax (if neg then - m else m) (- k - 1) neg).

Definition signed_zero (neg : bool) : float :=
  if neg then PrimFloat.neg_zero else PrimFloat.zero.

(** [float(n)] for an [int]: [OverflowError] when out of range. *)
Definition float_of_int (n : Z) : result float :=
  match n with
  | Z0 => Ok PrimFloat.zero
  | Zpos p =>
      let f := nearest_float false p 1 in
      if is_infinity f then Raise OverflowError else Ok f
  | Zneg p =>
      let f := nearest_float true p 1 in
      if is_infinity f then Raise OverflowError else Ok f
  end.

(** [a / b] on two [int]s: true division, correctly rounded. *)
Definition int_truediv (a b : Z) : result float :=
  match a, b with
  | _, Z0 => Raise ZeroDivisionError
  | Z0, Zpos _ => Ok PrimFloat.zero
  | Z0, Zneg _ => Ok PrimFloat.neg_zero
  | Zpos n, Zpos d | Zneg n, Zneg d =>
      let f := nearest_float false n d in
      if is_infinity f then Raise OverflowError else Ok f
  | Zpos n, Zneg d | Zneg n, Zpos d =>
      let f := nearest_float true n d in
      if is_infinity f then Raise OverflowError else Ok f
  end.

(** [x / n] for a [float] [x] and an optional [int] [n]: [None] is not a
    number ([TypeError]), a zero divisor raises, otherwise the divisor is
    converted and the quotient is the IEEE one. *)
Definition float_truediv_int (x : float) (n : option Z) : result float :=
  match n with
  | None => Raise TypeError
  | Some 0 => Raise ZeroDivisionError
  | Some n =>
      match float_of_int n with
      | Ok d => Ok (x / d)%float
      | Raise e => Raise e
      end
  end.

(** *** [round(x, ndigits)] on a float *)

(** [n / d] rounded to the nearest integer, ties to even ([d > 0]). *)
Definition round_half_even (n d : Z) : Z :=
  let (a, r) := Z.div_eucl n d in
  match 2 * r ?= d with
  | Lt => a
  | Gt => a + 1
  | Eq => if Z.even a then a else a + 1
  end.

(** The exact binary value of [x] is rounded half to even at [ndigits]
    decimal places and the double nearest to that decimal is returned;
    zeros, infinities and nan are returned unchanged. *)
Definition py_round (x : float) (ndigits : N) : float :=
  match Prim2SF x with
  | S754_finite s m e =>
      let p := 10 ^ Z.of_N ndigits in
      let q := if 0 <=? e
               then Zpos m * 2 ^ e * p
               else round_half_even (Zpos m * p) (2 ^ (- e)) in
      match q, p with
      | Zpos q', Zpos p' => nearest_float s q' p'
      | _, _ => signed_zero s
      end
  | _ => x
  end.

(** *** [str.strip()] *)

Definition is_space (c : ascii) : bool :=
  let n := N_of_ascii c in
  ((9 <=? n) && (n <=? 13) || (28 <=? n) && (n <=? 32)
   || (n =? 133) || (n =? 160))%N.

Fixpoint lstrip (s : string) : string :=
  match s with
  | String c s' => if is_space c then lstrip s' else s
  | EmptyString => EmptyString
  end.

Fixpoint rstrip (s : string) : string :=
  match s with
  | String c s' =>
      match rstrip s' with
      | EmptyString => if is_space c then EmptyString else String c EmptyString
      | t => String c t
      end
  | EmptyString => EmptyString
  end.

Definition strip (s : string) : string := rstrip (lstrip s).

(** *** [float(s)] on a string *)

Definition is_digit (c : ascii) : bool :=
  let n := N_of_ascii c in ((48 <=? n) && (n <=? 57))%N.

Definition digit_value (c : ascii) : Z := Z.of_N (N_of_ascii c) - 48.

Definition lower (c : ascii) : ascii :=
  let n := N_of_ascii c in
  if ((65 <=? n) && (n <=? 90))%N then ascii_of_N (n + 32) else c.

Fixpoint lowercase (s : string) : string :=
  match s with
  | String c s' => String (lower c) (lowercase s')
  | EmptyString => EmptyString
  end.

(** An underscore may stand only between two digits; the underscores
    are removed ([prev] is the character before [s], if any). *)
Fixpoint drop_underscores (prev : option ascii) (s : string) : option string :=
  match s with
  | EmptyString =>
      match prev with
      | Some "_"%char => None
      | _ => Some EmptyString
      end
  | String "_"%char s' =>
      match prev with
      | Some p => if is_digit p then drop_underscores (Some "_"%char) s' else None
      | None => None
      end
  | String c s' =>
      match prev with
      | Some "_"%char =>
          if is_digit c then String c <$> drop_underscores (Some c) s' else None
      | _ => String c <$> drop_underscores (Some c) s'
      end
  end.

Definition split_sign (s : string) : bool * string :=
  match s with
  | String "-"%char s' => (true, s')
  | String "+"%char s' => (false, s')
  | _ => (false, s)
  end.

(** Reads the digits at the head of [s] on top of the value [acc];
    returns the value, how many digits were read, and the rest. *)
Fixpoint span_digits (s : string) (acc : Z) (count : Z) : Z * Z * string :=
  match s with
  | String c s' =>
      if is_digit c then span_digits s' (10 * acc + digit_value c) (count + 1)
      else (acc, count, s)
  | EmptyString => (acc, count, s)
  end.

(** The exponent part: empty, or [e] or [E], an optional sign and at
    least one digit, up to the end of the string. *)
Definition exponent (s : string) : option Z :=
  match s with
  | EmptyString => Some 0
  | String c s' =>
      if (c =? "e")%char || (c =? "E")%char then
        let (neg, t) := split_sign s' in
        match span_digits t 0 0 with
        | (v, n, EmptyString) => if 0 <? n then Some (if neg then - v else v) else None
        | _ => None
        end
      else None
  end.

(** The double nearest to [v * 10 ^ e10], for [v >= 0]. *)
Definition decimal_to_float (neg : bool) (v e10 : Z) : float :=
  match v with
  | Zpos p =>
      if 0 <=? e10 then nearest_float neg (p * Z.to_pos (10 ^ e10)) 1
      else nearest_float neg p (Z.to_pos (10 ^ (- e10)))
  | _ => signed_zero neg
  end.

Definition parse_decimal (neg : bool) (s : string) : option float :=
  let '(ip, ni, r1) := span_digits s 0 0 in
  let '(v, nf, r2) :=
    match r1 with
    | String "."%char r => span_digits r ip 0
    | _ => (ip, 0, r1)
    end in
  if 0 <? ni + nf then
    match exponent r2 with
    | Some e => Some (decimal_to_float neg v (e - nf))
    | None => None
    end
  else None.

(** [float(s)]: surrounding whitespace is ignored, [inf], [infinity] and
    [nan] are read in any case, a decimal literal is rounded to the
    nearest double, and anything else is a [ValueError]. *)
Definition py_float (s : string) : result float :=
  match drop_underscores None (strip s) with
  | None => Raise ValueError
  | Some t =>
      let (neg, u) := split_sign t in
      let w := lowercase u in
      if (w =? "inf")%string || (w =? "infinity")%string
      then Ok (if neg then neg_infinity else infinity)
      else if (w =? "nan")%string then Ok nan
      else match parse_decimal neg u with
           | Some f => Ok f
           | None => Raise ValueError
           end
  end.

End Py.
Export Py.

(** ** Data of the monitor *)

(** The dict built by [get_all_metrics]: its five keys are fixed, so it
    is a record.  The [cpu] and [memory] dicts are empty when their
    source failed; [services] keeps the insertion order of the dict. *)
Record Metrics : Type := {
  timestamp : string;
  cpu : gmap string pyval;
  memory : gmap string pyval;
  temperature : option float;
  services : list (string * bool)
}.

(** A log message is the f-string it was built from: literal text and
    the values interpolated into it. *)
Inductive fragment : Type :=
| Text (s : string)
| StrArg (s : string)
| FloatArg (x : float)
| ExnArg (e : exn)
| MetricsArg (m : Metrics).

Inductive level : Type := INFO | WARNING | ERROR.

Record LogRecord : Type := {
  levelname : level;
  message : list fragment
}.

(** ** The host, as one tick sees it *)

(** psutil's named tuples, with the fields the monitor reads. *)
Record scpufreq : Type := { current : float; freq_min : float; freq_max : float }.
Record svmem : Type := { vm_available : Z; vm_percent : float }.
Record sswap : Type := { sw_free : Z; sw_percent : float }.

(** What an external command does once started: it exits after
    [duration] milliseconds with a return code and its standard output,
    or the call fails with an exception (the command cannot be started,
    the wait is interrupted). *)
Inductive proc : Type :=
| Exits (duration : N) (returncode : Z) (out : string)
| Fails (e : exn).

Record Env : Type := {
  (** [datetime.now().isoformat()] *)
  now_isoformat : string;
  (** [psutil.getloadavg()] *)
  getloadavg : result (float * float * float);
  (** [psutil.cpu_count()] *)
  cpu_count : result (option Z);
  (** [psutil.cpu_percent(interval=1)] *)
  cpu_percent : result float;
  (** [psutil.cpu_freq()], by the number of the call within the tick *)
  cpu_freq : nat -> result (option scpufreq);
  (** [psutil.virtual_memory()] *)
  virtual_memory : result svmem;
  (** [psutil.swap_memory()] *)
  swap_memory : result sswap;
  (** opening [temp_path] and reading it whole *)
  read_temp : result string;
  (** the behaviour of the command started with the given argv *)
  spawn : list string -> proc;
  (** [time.sleep(interval)], for a valid interval *)
  sleep : result unit
}.

(** ** Logging and exceptions *)

(** A computation reads the log written so far and returns the log it
    leaves with a value or a raised exception. *)
Definition M (A : Type) : Type := list LogRecord -> list LogRecord * result A.

Definition ret {A} (a : A) : M A := fun l => (l, Ok a).

Definition raise {A} (e : exn) : M A := fun l => (l, Raise e).

Definition lift {A} (r : result A) : M A := fun l => (l, r).

Definition bind {A B} (m : M A) (k : A -> M B) : M B :=
  fun l =>
    match m l with
    | (l', Ok a) => k a l'
    | (l', Raise e) => (l', Raise e)
    end.

Notation "x <~ m ;; k" := (bind m (fun x => k))
  (at level 100, m at next level, right associativity,
   format "'[v' x  <~  m  ;; '/' k ']'").
Notation "m ;;; k" := (bind m (fun _ => k))
  (at level 100, right associativity, format "'[v' m  ;;; '/' k ']'").

(** [try: body except Exception as e: handler e]: only instances of
    [Exception] are caught. *)
Definition try_except_Exception {A} (body : M A) (handler : exn -> M A) : M A :=
  fun l =>
    match body l with
    | (l', Raise e) => if is_Exception e then handler e l' else (l', Raise e)
    | r => r
    end.

(** [self.logger.<level>(msg)] *)
Definition logger (lv : level) (msg : list fragment) : M unit :=
  fun l => (l ++ [{| levelname := lv; message := msg |}], Ok tt).

(** [d[k]] on a dict. *)
Definition getitem (d : gmap string pyval) (k : string) : M pyval :=
  match d !! k with
  | Some v => ret v
  | None => raise (KeyError k)
  end.

(** [d[k] = v] on an insertion-ordered dict: a present key keeps its
    place, a new key goes last. *)
Fixpoint setitem {V} (d : list (string * V)) (k : string) (v : V) : list (string * V) :=
  match d with
  | [] => [(k, v)]
  | (k', v') :: d' =>
      if String.eqb k' k then (k, v) :: d' else (k', v') :: setitem d' k v
  end.

(** [x > n] for a float and an int, as CPython compares them: an int of
    at most 48 bits is converted to a double and the doubles are compared
    (nan compares false); a longer int is compared with the exact value
    of the float. *)
Definition float_gt_int (x : float) (n : Z) : bool :=
  if Z.log2 (Z.abs n) <? 48 then
    (SF2Prim (binary_normalize prec emax n 0 false) <? x)%float
  else
    match Prim2SF x with
    | S754_nan => false
    | S754_infinity s => negb s
    | S754_zero _ => n <? 0
    | S754_finite s m e =>
        let v := if s then Zneg m else Zpos m in
        if 0 <=? e then n <? v * 2 ^ e else n * 2 ^ (- e) <? v
    end.

(** [v > n] for a value of a metrics dict. *)
Definition gt_int (v : pyval) (n : Z) : bool :=
  match v with
  | PyFloat x => float_gt_int x n
  | PyInt z => n <? z
  end.

(** Truth value of a float: zero (of either sign) is false. *)
Definition float_truthy (x : float) : bool := negb (x =? 0)%float.

(** ** [subprocess.run] *)

Record RunArgs : Type := {
  args : list string;
  capture_output : bool;
  text : bool;
  (** milliseconds; [None] when no [timeout=] is passed *)
  timeout : option N
}.

Record CompletedProcess : Type := {
  returncode : Z;
  (** [None] unless the output was captured *)
  stdout : option string
}.

(** What a call of [subprocess.run] returns or raises, and for how long
    it blocks the caller: the command is waited for until it exits, or,
    with a timeout, until the timeout expires ([TimeoutExpired]). *)
Definition run_outcome (r : RunArgs) (p : proc) : result CompletedProcess * N :=
  match p with
  | Exits d rc out =>
      let done :=
        Ok {| returncode := rc;
              stdout := if capture_output r then Some out else None |} in
      match timeout r with
      | Some t => if (t <? d)%N then (Raise TimeoutExpired, t) else (done, d)
      | None => (done, d)
      end
  | Fails e => (Raise e, 0%N)
  end.

Definition subprocess_run (env : Env) (r : RunArgs) : M CompletedProcess :=
  lift (fst (run_outcome r (spawn env (args r)))).

(** ** [DevEnvironmentMonitor] *)

(** [self.dev_services], set in [__init__]. *)
Definition dev_services : list string :=
  ["ssh"; "docker"; "nginx"; "postgresql"]%string.

Definition get_cpu_metrics (env : Env) : M (gmap string pyval) :=
  try_except_Exception
    (loads <~ lift (getloadavg env) ;;
     let '(load1, load5, load15) := loads in
     count <~ lift (cpu_count env) ;;
     percent <~ lift (cpu_percent env) ;;
     q1 <~ lift (float_truediv_int load1 count) ;;
     q5 <~ lift (float_truediv_int load5 count) ;;
     q15 <~ lift (float_truediv_int load15 count) ;;
     probe <~ lift (cpu_freq env 0%nat) ;;
     freq <~ match probe with
             | Some _ =>
                 again <~ lift (cpu_freq env 1%nat) ;;
                 match again with
                 | Some f => ret (PyFloat (current f))
                 | None => raise AttributeError
                 end
             | None => ret (PyInt 0)
             end ;;
     ret (list_to_map
            [("cpu_percent", PyFloat percent);
             ("load_1min", PyFloat (py_round (q1 * 100) 2));
             ("load_5min", PyFloat (py_round (q5 * 100) 2));
             ("load_15min", PyFloat (py_round (q15 * 100) 2));
             ("cpu_freq", freq)]%string))
    (fun e =>
       logger ERROR [Text "Error getting CPU metrics: "; ExnArg e] ;;;
       ret ∅).

Definition get_temperature (env : Env) : M (option float) :=
  try_except_Exception
    (content <~ lift (read_temp env) ;;
     millis <~ lift (py_float (strip content)) ;;
     ret (Some (py_round (millis / 1000) 2)))
    (fun e =>
       logger ERROR [Text "Error reading temperature: "; ExnArg e] ;;;
       ret None).

Definition get_memory_metrics (env : Env) : M (gmap string pyval) :=
  try_except_Exception
    (mem <~ lift (virtual_memory env) ;;
     swap <~ lift (swap_memory env) ;;
     available_gb <~ lift (int_truediv (vm_available mem) (1024 ^ 3)) ;;
     free_gb <~ lift (int_truediv (sw_free swap) (1024 ^ 3)) ;;
     ret (list_to_map
            [("memory_used_percent", PyFloat (vm_percent mem));
             ("memory_available_gb", PyFloat (py_round available_gb 2));
             ("swap_used_percent", PyFloat (sw_percent swap));
             ("swap_free_gb", PyFloat (py_round free_gb 2))]%string))
    (fun e =>
       logger ERROR [Text "Error getting memory metrics: "; ExnArg e] ;;;
       ret ∅).

(** The call [subprocess.run(['systemctl', 'is-active', service],
    capture_output=True, text=True)]. *)
Definition systemctl_request (service : string) : RunArgs :=
  {| args := ["systemctl"; "is-active"; service]%string;
     capture_output := true;
     text := true;
     timeout := None |}.

(** One round of the loop of [check_dev_services]. *)
Definition check_service (env : Env) (service : string)
    (service_status : list (string * bool)) : M (list (string * bool)) :=
  try_except_Exception
    (completed <~ subprocess_run env (systemctl_request service) ;;
     match stdout completed with
     | Some out =>
         ret (setitem service_status service (String.eqb (strip out) "active"))
     | None => raise AttributeError
     end)
    (fun e =>
       logger ERROR [Text "Error checking "; StrArg service; Text " status: "; ExnArg e] ;;;
       ret (setitem service_status service false)).

Fixpoint check_services (env : Env) (todo : list string)
    (service_status : list (string * bool)) : M (list (string * bool)) :=
  match todo with
  | [] => ret service_status
  | service :: rest =>
      service_status' <~ check_service env service service_status ;;
      check_services env rest service_status'
  end.

Definition check_dev_services (env : Env) : M (list (string * bool)) :=
  check_services env dev_services [].

Definition get_all_metrics (env : Env) : M Metrics :=
  c <~ get_cpu_metrics env ;;
  m <~ get_memory_metrics env ;;
  t <~ get_temperature env ;;
  s <~ check_dev_services env ;;
  ret {| timestamp := now_isoformat env;
         cpu := c; memory := m; temperature := t; services := s |}.

(** [for x in xs: body x] *)
Fixpoint for_each {A} (xs : list A) (body : A -> M unit) : M unit :=
  match xs with
  | [] => ret tt
  | x :: rest => body x ;;; for_each rest body
  end.

(** U+00B0, the degree sign of the temperature message. *)
Definition degree_sign : ascii := "176"%char.

(** The alert rules of [start_monitoring], in the order the loop body
    has them: temperature, memory, services. *)
Definition alert_rules (metrics : Metrics) : M unit :=
  match temperature metrics with
  | Some t =>
      if float_truthy t && float_gt_int t 80
      then logger WARNING [Text "High temperature detected: "; FloatArg t;
                           Text (String degree_sign "C")]
      else ret tt
  | None => ret tt
  end ;;;
  used <~ getitem (memory metrics) "memory_used_percent" ;;
  (if gt_int used 90
   then logger WARNING [Text "High memory usage detected!"]
   else ret tt) ;;;
  for_each (services metrics)
    (fun '(service, status) =>
       if negb status
       then logger WARNING [Text "Service "; StrArg service; Text " is not running!"]
       else ret tt).

(** [time.sleep(interval)]: a negative length is a [ValueError]. *)
Definition time_sleep (env : Env) (interval : Z) : M unit :=
  if interval <? 0 then raise ValueError else lift (sleep env).

(** The body of the [while True] loop: one tick. *)
Definition monitor_tick (env : Env) (interval : Z) : M unit :=
  metrics <~ get_all_metrics env ;;
  logger INFO [Text "Current metrics: "; MetricsArg metrics] ;;;
  alert_rules metrics ;;;
  time_sleep env interval.

(** The loop itself, run over the environments of its successive ticks.
    [while True] has no normal exit: [Ok tt] says that every tick given
    has run and the loop is about to start the next one. *)
Fixpoint monitor_loop (ticks : list Env) (interval : Z) : M unit :=
  match ticks with
  | [] => ret tt
  | env :: later => monitor_tick env interval ;;; monitor_loop later interval
  end.

(** How a call of [start_monitoring] stands after the given ticks: still
    in its loop, returned to its caller, or left by an exception that
    neither handler catches. *)
Inductive run_state : Type :=
| Running
| Returned
| Propagated (e : exn).

Definition start_monitoring (ticks : list Env) (interval : Z)
    (l : list LogRecord) : list LogRecord * run_state :=
  match
    (logger INFO [Text "Starting development environment monitoring"] ;;;
     monitor_loop ticks interval) l
  with
  | (l', Ok tt) => (l', Running)
  | (l', Raise KeyboardInterrupt) =>
      (fst (logger INFO [Text "Monitoring stopped by user"] l'), Returned)
  | (l', Raise e) =>
      if is_Exception e
      then (fst (logger ERROR [Text "Monitoring error: "; ExnArg e] l'), Returned)
      else (l', Propagated e)
  end.

(** The default of the [interval] parameter. *)
Definition default_interval : Z := 60.

(** ** Reading the log *)

(** The records a computation writes, and what it returns, when started
    on an empty log. *)
Definition emitted {A} (m : M A) : list LogRecord := fst (m []).
Definition outcome {A} (m : M A) : result A := snd (m []).

(** The three alerts of the specification, as the warnings that carry
    them. *)
Inductive AlertKind : Type := HighTemperature | HighMemory | ServiceDown.

Definition alert_kind (r : LogRecord) : option AlertKind :=
  match levelname r, message r with
  | WARNING, Text t :: _ =>
      if String.eqb t "High temperature detected: " then Some HighTemperature
      else if String.eqb t "High memory usage detected!" then Some HighMemory
      else if String.eqb t "Service " then Some ServiceDown
      else None
  | _, _ => None
  end.

Definition is_alert (k : AlertKind) (r : LogRecord) : bool :=
  match alert_kind r, k with
  | Some HighTemperature, HighTemperature
  | Some HighMemory, HighMemory
  | Some ServiceDown, ServiceDown => true
  | _, _ => false
  end.

(** The warnings of kind [k] in a log, in order. *)
Definition alerts (k : AlertKind) (l : list LogRecord) : list LogRecord :=
  List.filter (is_alert k) l.

Definition high_temperature (t : float) : LogRecord :=
  {| levelname := WARNING;
     message := [Text "High temperature detected: "; FloatArg t;
                 Text (String degree_sign "C")] |}.

Definition high_memory : LogRecord :=
  {| levelname := WARNING; message := [Text "High memory usage detected!"] |}.

Definition service_down (service : string) : LogRecord :=
  {| levelname := WARNING;
     message := [Text "Service "; StrArg service; Text " is not running!"] |}.

(** ** Vocabulary of the statements *)

(** A computation is [framed] when it does not depend on the log it
    starts from: it appends the same records and returns the same
    result whatever was logged before. *)
Definition framed {A} (m : M A) : Prop :=
  forall l, m l = (l ++ emitted m, outcome m).

(** The services of a snapshot that are down, in the order of the dict. *)
Definition down (sv : list (string * bool)) : list string :=
  List.map fst (List.filter (fun p => negb (snd p)) sv).

Definition service_rule (p : string * bool) : M unit :=
  let '(service, status) := p in
  if negb status
  then logger WARNING [Text "Service "; StrArg service; Text " is not running!"]
  else ret tt.

Definition temperature_alerts (metrics : Metrics) : list LogRecord :=
  match temperature metrics with
  | Some t => if (80 <? t)%float then [high_temperature t] else []
  | None => []
  end.

(** Runs the alert rules [n] times in a row on the same snapshot, each
    run starting from the log the previous one left; returns, for every
    run, the records it added and what it returned. *)
Fixpoint evaluate_repeatedly (n : nat) (metrics : Metrics) (l : list LogRecord)
    : list (list LogRecord * result unit) :=
  match n with
  | O => []
  | S n' =>
      let (l', r) := alert_rules metrics l in
      (drop (length l) l', r) :: evaluate_repeatedly n' metrics l'
  end.

(** A result that, when it raises, raises an instance of [Exception]:
    the call was not cut short by [KeyboardInterrupt] or [SystemExit]. *)
Definition no_interrupt {A} (r : result A) : Prop :=
  match r with
  | Raise e => is_Exception e = true
  | Ok _ => True
  end.

(** A computation that raises nothing but [KeyboardInterrupt] or
    [SystemExit]: no [Exception] leaves it. *)
Definition contains_errors {A} (m : M A) : Prop :=
  forall e, outcome m = Raise e -> is_Exception e = false.

(** The query of one service, and what the monitor makes of it. *)
Definition query (env : Env) (service : string) : proc :=
  spawn env (args (systemctl_request service)).

Definition service_active (p : proc) : bool :=
  match p with
  | Exits _ _ out => String.eqb (strip out) "active"
  | Fails _ => false
  end.

(** The line feed that ends the output of a command and the content of
    the thermal file. *)
Definition newline : string := String "010"%char EmptyString.

(** A host on which [systemctl] answers for ssh, docker and postgresql
    and cannot be run for nginx; the memory statistics and the thermal
    file are as given. *)
Definition answers (argv : list string) : proc :=
  match argv with
  | [_; _; service] =>
      if String.eqb service "ssh" then Exits 12 0 ("active" ++ newline)
      else if String.eqb service "docker" then Exits 15 3 ("inactive" ++ newline)
      else if String.eqb service "nginx" then Fails (OSError "systemctl: not found")
      else Exits 9 0 "active"
  | _ => Fails (OSError "not a status query")
  end%string.

Definition host (vm : result svmem) (thermal : result string) : Env :=
  {| now_isoformat := "2024-03-01T12:00:00";
     getloadavg := Ok (8, 2, 0.5)%float;
     cpu_count := Ok (Some 4);
     cpu_percent := Ok 37.5%float;
     cpu_freq := fun _ => Ok None;
     virtual_memory := vm;
     swap_memory := Ok {| sw_free := 1073741824; sw_percent := 0%float |};
     read_temp := thermal;
     spawn := answers;
     sleep := Ok tt |}.

Definition host_ok : Env :=
  host (Ok {| vm_available := 2147483648; vm_percent := 42.5%float |})
       (Ok ("45678" ++ newline)%string).

Definition host_memory_down : Env :=
  host (Raise (OSError "/proc/meminfo")) (Ok ("45678" ++ newline)%string).

Definition host_no_sensor : Env :=
  host (Ok {| vm_available := 2147483648; vm_percent := 42.5%float |})
       (Raise (OSError "No such file or directory")).

Definition host_garbled_sensor : Env :=
  host (Ok {| vm_available := 2147483648; vm_percent := 42.5%float |})
       (Ok "n/a"%string).

Definition busy_cpu : gmap string pyval :=
  list_to_map [("cpu_percent", PyFloat 37.5); ("load_1min", PyFloat 200);
               ("load_5min", PyFloat 50); ("load_15min", PyFloat 12.5);
               ("cpu_freq", PyInt 0)]%string.

Definition host_services : list (string * bool) :=
  [("ssh", true); ("docker", false); ("nginx", false); ("postgresql", true)]%string.

(** The snapshot collected on [host_memory_down]: the memory dict is
    empty, docker and nginx are down. *)
Definition snapshot_memory_absent : Metrics :=
  {| timestamp := "2024-03-01T12:00:00";
     cpu := busy_cpu;
     memory := ∅;
     temperature := Some 45.68%float;
     services := host_services |}.

(** The snapshot collected on [host_ok]. *)
Definition snapshot_ok : Metrics :=
  {| timestamp := "2024-03-01T12:00:00";
     cpu := busy_cpu;
     memory := list_to_map
                 [("memory_used_percent", PyFloat 42.5);
                  ("memory_available_gb", PyFloat 2);
                  ("swap_used_percent", PyFloat 0);
                  ("swap_free_gb", PyFloat 1)]%string;
     temperature := Some 45.68%float;
     services := host_services |}.

(** The ways in which a source fails: a call that it makes raises, or
    returns something the source cannot use. *)
Definition cpu_source_fails (env : Env) : Prop :=
  (exists e, getloadavg env = Raise e)
  \/ (exists e, cpu_count env = Raise e)
  \/ cpu_count env = Ok None
  \/ cpu_count env = Ok (Some 0)
  \/ (exists e, cpu_percent env = Raise e)
  \/ (exists e, cpu_freq env 0%nat = Raise e)
  \/ (exists f, cpu_freq env 0%nat = Ok (Some f)
               /\ ((exists e, cpu_freq env 1%nat = Raise e)
                   \/ cpu_freq env 1%nat = Ok None)).

Definition memory_source_fails (env : Env) : Prop :=
  (exists e, virtual_memory env = Raise e)
  \/ (exists e, swap_memory env = Raise e).

Definition temperature_source_fails (env : Env) : Prop :=
  (exists e, read_temp env = Raise e)
  \/ (exists content e, read_temp env = Ok content
                        /\ py_float (strip content) = Raise e).

(** No call that the collector makes of its host is cut short by
    [KeyboardInterrupt] or [SystemExit]: each returns, or fails with an
    instance of [Exception]. *)
Record sources_answer (env : Env) : Prop := {
  answer_getloadavg : no_interrupt (getloadavg env);
  answer_cpu_count : no_interrupt (cpu_count env);
  answer_cpu_percent : no_interrupt (cpu_percent env);
  answer_cpu_freq : forall n, no_interrupt (cpu_freq env n);
  answer_virtual_memory : no_interrupt (virtual_memory env);
  answer_swap_memory : no_interrupt (swap_memory env);
  answer_read_temp : no_interrupt (read_temp env);
  answer_query :
    forall service e, In service dev_services ->
      query env service = Fails e -> is_Exception e = true
}.

Definition starting : LogRecord :=
  {| levelname := INFO;
     message := [Text "Starting development environment monitoring"] |}.

Definition stopped_by_user : LogRecord :=
  {| levelname := INFO; message := [Text "Monitoring stopped by user"] |}.

Definition monitoring_error (e : exn) : LogRecord :=
  {| levelname := ERROR; message := [Text "Monitoring error: "; ExnArg e] |}.

(** ** Vocabulary of the further properties *)

(** The record a source leaves when it fails, and the one a failed
    service query leaves. *)
Definition error_record (what : string) (e : exn) : LogRecord :=
  {| levelname := ERROR; message := [Text what; ExnArg e] |}.

Definition service_error (service : string) (e : exn) : LogRecord :=
  {| levelname := ERROR;
     message := [Text "Error checking "; StrArg service; Text " status: "; ExnArg e] |}.

(** The record with which a tick logs the snapshot it collected. *)
Definition current_metrics (metrics : Metrics) : LogRecord :=
  {| levelname := INFO; message := [Text "Current metrics: "; MetricsArg metrics] |}.

Definition cpu_keys : gset string :=
  {[ "cpu_percent"; "load_1min"; "load_5min"; "load_15min"; "cpu_freq" ]}%string.

(** The errors that the queries of the given services leave in the log,
    in the order of the services. *)
Definition query_errors (env : Env) (todo : list string) : list LogRecord :=
  flat_map
    (fun service =>
       match query env service with
       | Fails e => [service_error service e]
       | Exits _ _ _ => []
       end)
    todo.

(** The temperature warning that a thermal reading of [millis]
    milli-degrees leads to. *)
Definition warning_for_reading (millis : float) : list LogRecord :=
  let t := py_round (millis / 1000) 2 in
  if (80 <? t)%float then [high_temperature t] else [].

(** At most [n] records, all of them errors. *)
Definition errors_at_most (n : nat) (l : list LogRecord) : Prop :=
  Forall (fun r => levelname r = ERROR) l /\ (length l <= n)%nat.

(** A host like [host], with the CPU utilisation, the thermal file and
    the sleep of the tick as given. *)
Definition host_where (percent : result float) (vm : result svmem)
    (thermal : result string) (nap : result unit) : Env :=
  {| now_isoformat := "2024-03-01T12:00:00";
     getloadavg := Ok (8, 2, 0.5)%float;
     cpu_count := Ok (Some 4);
     cpu_percent := percent;
     cpu_freq := fun _ => Ok None;
     virtual_memory := vm;
     swap_memory := Ok {| sw_free := 1073741824; sw_percent := 0%float |};
     read_temp := thermal;
     spawn := answers;
     sleep := nap |}.

Definition memory_fine : result svmem :=
  Ok {| vm_available := 2147483648; vm_percent := 42.5%float |}.

Definition memory_full : result svmem :=
  Ok {| vm_available := 104857600; vm_percent := 95%float |}.


(** Ctrl-C arrives while the loop sleeps. *)
Definition host_interrupted_sleeping : Env :=
  host_where (Ok 37.5%float) memory_fine (Ok ("45678" ++ newline)%string)
    (Raise KeyboardInterrupt).

(** A board at 85.3 degrees with its memory 95 percent used. *)
Definition host_hot : Env :=
  host_where (Ok 37.5%float) memory_full (Ok ("85300" ++ newline)%string) (Ok tt).

(** A board at 85.3 degrees whose memory statistics cannot be read. *)
Definition host_hot_memory_down : Env :=
  host_where (Ok 37.5%float) (Raise (OSError "/proc/meminfo"))
    (Ok ("85300" ++ newline)%string) (Ok tt).

(** A host whose clock speeds up between the two readings of the
    frequency: 600 MHz, then 1500 MHz. *)
Definition host_scaling : Env :=
  {| now_isoformat := "2024-03-01T12:00:00";
     getloadavg := Ok (8, 2, 0.5)%float;
     cpu_count := Ok (Some 4);
     cpu_percent := Ok 37.5%float;
     cpu_freq := fun n =>
       Ok (Some {| current := match n with O => 600 | _ => 1500 end;
                   freq_min := 600; freq_max := 1500 |});
     virtual_memory := memory_fine;
     swap_memory := Ok {| sw_free := 1073741824; sw_percent := 0%float |};
     read_temp := Ok ("45678" ++ newline)%string;
     spawn := answers;
     sleep := Ok tt |}.

Definition scaling_cpu : gmap string pyval :=
  list_to_map [("cpu_percent", PyFloat 37.5); ("load_1min", PyFloat 200);
               ("load_5min", PyFloat 50); ("load_15min", PyFloat 12.5);
               ("cpu_freq", PyFloat 1500)]%string.

(** Snapshots with the memory above and at the threshold of the memory
    rule. *)
Definition snapshot_memory_full : Metrics :=
  {| timestamp := "2024-03-01T12:00:00";
     cpu := busy_cpu;
     memory := {[ "memory_used_percent"%string := PyFloat 95 ]};
     temperature := None;
     services := [] |}.

Definition snapshot_memory_at_threshold : Metrics :=
  {| timestamp := "2024-03-01T12:00:00";
     cpu := busy_cpu;
     memory := {[ "memory_used_percent"%string := PyFloat 90 ]};
     temperature := None;
     services := [] |}.

(** *** The constructor and the script *)

(** The attributes that [__init__] sets. *)
Record Monitor : Type := {
  temp_path : string;
  throttle_path : string;
  monitored : list string
}.

(** [DevEnvironmentMonitor(config_path)]: [open_log] is what opening
    [dev_monitor.log] for the file handler gives; nothing can be logged
    before the handlers exist. *)
Definition init (config_path : option string) (open_log : result unit) : M Monitor :=
  lift open_log ;;;
  logger INFO [Text "Initializing Development Environment Monitor"] ;;;
  logger INFO [Text "Monitor initialized successfully"] ;;;
  ret {| temp_path := "/sys/class/thermal/thermal_zone0/temp";
         throttle_path := "/sys/devices/system/cpu/cpu0/cpufreq/scaling_cur_freq";
         monitored := dev_services |}.

(** The script: build the monitor, start it with the default interval. *)
Definition main (open_log : result unit) (ticks : list Env)
    (l : list LogRecord) : list LogRecord * run_state :=
  match init None open_log l with
  | (l', Ok _) => start_monitoring ticks default_interval l'
  | (l', Raise e) => (l', Propagated e)
  end.

(** ** The builtins on known values *)

(** [round] works on the binary value: 2.675 is stored just below the
    tie and rounds down, 0.125 is an exact tie and goes to the even
    digit, a negative value that rounds to zero keeps its sign. *)
Example round_below_tie : py_round 2.675 2 = 2.67%float.
Proof. reflexivity. Qed.

Example round_exact_tie : py_round 0.125 2 = 0.12%float /\ py_round 0.375 2 = 0.38%float.
Proof. split; reflexivity. Qed.

Example round_negative_zero : py_round (-0.001) 2 = PrimFloat.neg_zero.
Proof. reflexivity. Qed.

Example round_large : py_round 1e22 2 = 1e22%float /\ py_round infinity 2 = infinity.
Proof. split; reflexivity. Qed.

Example float_of_text :
  py_float ("  45678" ++ newline) = Ok 45678%float
  /\ py_float "1_000.5e-1" = Ok 100.05%float
  /\ py_float "-Infinity" = Ok neg_infinity
  /\ py_float "1e400" = Ok infinity
  /\ py_float "9007199254740993" = Ok 9007199254740992%float.
Proof. repeat split; vm_compute; reflexivity. Qed.

Example float_of_bad_text :
  py_float "" = Raise ValueError
  /\ py_float "n/a" = Raise ValueError
  /\ py_float "1e" = Raise ValueError
  /\ py_float "1__0" = Raise ValueError
  /\ py_float "4 5" = Raise ValueError.
Proof. repeat split; reflexivity. Qed.

Example true_division :
  int_truediv 1 3 = Ok (1 / 3)%float
  /\ int_truediv 2147483648 (1024 ^ 3) = Ok 2%float
  /\ int_truediv 1 0 = Raise ZeroDivisionError.
Proof. repeat split; vm_compute; reflexivity. Qed.

Example comparison_with_int :
  float_gt_int 85.3 80 = true
  /\ float_gt_int 80 80 = false
  /\ float_gt_int nan 80 = false
  /\ float_gt_int infinity (2 ^ 70) = true.
Proof. repeat split; reflexivity. Qed.

Example strip_output : strip ("  active" ++ newline) = "active"%string.
Proof. reflexivity. Qed.

(** ** The log is only ever appended to *)

Section Framed.
Context {A B : Type}.

Lemma framed_ret (a : A) : framed (ret a).
Proof. intros l. unfold ret, emitted, outcome. simpl. by rewrite app_nil_r. Qed.

Lemma framed_raise (e : exn) : framed (@raise A e).
Proof. intros l. unfold raise, emitted, outcome. simpl. by rewrite app_nil_r. Qed.

Lemma framed_lift (r : result A) : framed (lift r).
Proof. intros l. unfold lift, emitted, outcome. simpl. by rewrite app_nil_r. Qed.

Lemma emitted_bind (m : M A) (k : A -> M B) :
  framed m -> (forall a, framed (k a)) ->
  emitted (bind m k) =
    emitted m ++ match outcome m with
                 | Ok a => emitted (k a)
                 | Raise _ => []
                 end.
Proof.
  intros Hm Hk. unfold emitted at 1. unfold bind.
  rewrite (surjective_pairing (m [])).
  fold (emitted m) (outcome m).
  destruct (outcome m) as [a|e]; simpl.
  - by rewrite (Hk a).
  - by rewrite app_nil_r.
Qed.

Lemma outcome_bind (m : M A) (k : A -> M B) :
  framed m -> (forall a, framed (k a)) ->
  outcome (bind m k) =
    match outcome m with
    | Ok a => outcome (k a)
    | Raise e => Raise e
    end.
Proof.
  intros Hm Hk. unfold outcome at 1. unfold bind.
  rewrite (surjective_pairing (m [])).
  fold (emitted m) (outcome m).
  destruct (outcome m) as [a|e]; simpl; [|done].
  by rewrite (Hk a).
Qed.

Lemma framed_bind (m : M A) (k : A -> M B) :
  framed m -> (forall a, framed (k a)) -> framed (bind m k).
Proof.
  intros Hm Hk l.
  rewrite emitted_bind, outcome_bind by done.
  unfold bind. rewrite (Hm l).
  destruct (outcome m) as [a|e].
  - by rewrite (Hk a), app_assoc.
  - by rewrite app_nil_r.
Qed.
End Framed.

Section FramedHandlers.
Context {A : Type}.

Lemma emitted_try (body : M A) (handler : exn -> M A) :
  framed body -> (forall e, framed (handler e)) ->
  emitted (try_except_Exception body handler) =
    emitted body ++ match outcome body with
                    | Raise e => if is_Exception e then emitted (handler e) else []
                    | Ok _ => []
                    end.
Proof.
  intros Hb Hh. unfold emitted at 1. unfold try_except_Exception.
  rewrite (surjective_pairing (body [])).
  fold (emitted body) (outcome body).
  destruct (outcome body) as [a|e]; simpl.
  - by rewrite app_nil_r.
  - destruct (is_Exception e); simpl.
    + by rewrite (Hh e).
    + by rewrite app_nil_r.
Qed.

Lemma outcome_try (body : M A) (handler : exn -> M A) :
  framed body -> (forall e, framed (handler e)) ->
  outcome (try_except_Exception body handler) =
    match outcome body with
    | Raise e => if is_Exception e then outcome (handler e) else Raise e
    | Ok a => Ok a
    end.
Proof.
  intros Hb Hh. unfold outcome at 1. unfold try_except_Exception.
  rewrite (surjective_pairing (body [])).
  fold (emitted body) (outcome body).
  destruct (outcome body) as [a|e]; simpl; [done|].
  destruct (is_Exception e); simpl; [|done].
  by rewrite (Hh e).
Qed.

Lemma framed_try (body : M A) (handler : exn -> M A) :
  framed body -> (forall e, framed (handler e)) ->
  framed (try_except_Exception body handler).
Proof.
  intros Hb Hh l.
  rewrite emitted_try, outcome_try by done.
  unfold try_except_Exception. rewrite (Hb l).
  destruct (outcome body) as [a|e].
  - by rewrite app_nil_r.
  - destruct (is_Exception e).
    + by rewrite (Hh e), app_assoc.
    + by rewrite app_nil_r.
Qed.
End FramedHandlers.

Lemma framed_logger lv msg : framed (logger lv msg).
Proof. intros l. reflexivity. Qed.

Lemma framed_getitem d k : framed (getitem d k).
Proof. unfold getitem. destruct (d !! k); [apply framed_ret | apply framed_raise]. Qed.

Lemma framed_for_each {A} (xs : list A) (body : A -> M unit) :
  (forall x, framed (body x)) -> framed (for_each xs body).
Proof.
  intros Hbody. induction xs as [|x rest IH]; simpl.
  - apply framed_ret.
  - apply framed_bind; [apply Hbody | intros _; apply IH].
Qed.

Create HintDb framed.
#[export] Hint Resolve framed_ret framed_raise framed_lift framed_logger
  framed_getitem : framed.

(** Splits a goal [framed m] along the structure of [m]. *)
Ltac framed_step :=
  match goal with
  | |- framed (bind _ _) => apply framed_bind; [|intros ?]
  | |- framed (try_except_Exception _ _) => apply framed_try; [|intros ?]
  | |- framed (for_each _ _) => apply framed_for_each; intros ?
  | |- framed (match ?x with _ => _ end) => destruct x
  | |- framed _ => solve [auto with framed]
  end.

Ltac framed_auto := intros; repeat framed_step.

Lemma framed_get_cpu_metrics env : framed (get_cpu_metrics env).
Proof. unfold get_cpu_metrics. framed_auto. Qed.

Lemma framed_get_memory_metrics env : framed (get_memory_metrics env).
Proof. unfold get_memory_metrics. framed_auto. Qed.

Lemma framed_get_temperature env : framed (get_temperature env).
Proof. unfold get_temperature. framed_auto. Qed.

Lemma framed_check_service env service st : framed (check_service env service st).
Proof. unfold check_service, subprocess_run. framed_auto. Qed.

Lemma framed_check_services env todo : forall st, framed (check_services env todo st).
Proof.
  induction todo as [|service rest IH]; intros st; simpl.
  - apply framed_ret.
  - apply framed_bind; [apply framed_check_service | intros st'; apply IH].
Qed.

Lemma framed_check_dev_services env : framed (check_dev_services env).
Proof. apply framed_check_services. Qed.

#[export] Hint Resolve framed_get_cpu_metrics framed_get_memory_metrics
  framed_get_temperature framed_check_dev_services : framed.

Lemma framed_get_all_metrics env : framed (get_all_metrics env).
Proof. unfold get_all_metrics. framed_auto. Qed.

Lemma framed_alert_rules metrics : framed (alert_rules metrics).
Proof. unfold alert_rules. framed_auto. Qed.

Lemma framed_time_sleep env interval : framed (time_sleep env interval).
Proof. unfold time_sleep. framed_auto. Qed.

#[export] Hint Resolve framed_get_all_metrics framed_alert_rules
  framed_time_sleep : framed.

Lemma framed_monitor_tick env interval : framed (monitor_tick env interval).
Proof. unfold monitor_tick. framed_auto. Qed.

Lemma framed_monitor_loop ticks interval : framed (monitor_loop ticks interval).
Proof.
  induction ticks as [|env later IH]; simpl.
  - apply framed_ret.
  - apply framed_bind; [apply framed_monitor_tick | intros _; apply IH].
Qed.

(** ** The alert rules *)

Lemma framed_service_rule p : framed (service_rule p).
Proof. destruct p as [service []]; simpl; auto with framed. Qed.

Lemma service_loop_emitted (sv : list (string * bool)) :
  emitted (for_each sv service_rule) = List.map service_down (down sv).
Proof.
  induction sv as [|[service status] rest IH]; [done|].
  cbn [for_each]. rewrite emitted_bind.
  - rewrite IH. by destruct status.
  - apply framed_service_rule.
  - intros _. apply framed_for_each, framed_service_rule.
Qed.

Lemma service_loop_outcome (sv : list (string * bool)) :
  outcome (for_each sv service_rule) = Ok tt.
Proof.
  induction sv as [|[service status] rest IH]; [done|].
  cbn [for_each]. rewrite outcome_bind.
  - rewrite IH. by destruct status.
  - apply framed_service_rule.
  - intros _. apply framed_for_each, framed_service_rule.
Qed.

(** The comparison of the temperature rule is the IEEE one with 80.0,
    and the truth test before it changes nothing: a zero is not above
    80. *)
Lemma temperature_test (t : float) :
  float_truthy t && float_gt_int t 80 = (80 <? t)%float.
Proof.
  unfold float_truthy.
  change (float_gt_int t 80) with (80 <? t)%float.
  rewrite FloatAxioms.ltb_spec, FloatAxioms.eqb_spec.
  destruct (Prim2SF t) as [s|s| |s m e]; try reflexivity.
  all: destruct s; reflexivity.
Qed.

Lemma memory_test (x : float) : gt_int (PyFloat x) 90 = (90 <? x)%float.
Proof. reflexivity. Qed.

Lemma alert_rules_emitted (metrics : Metrics) :
  emitted (alert_rules metrics) =
    temperature_alerts metrics ++
    match memory metrics !! "memory_used_percent"%string with
    | Some used =>
        (if gt_int used 90 then [high_memory] else []) ++
        List.map service_down (down (services metrics))
    | None => []
    end.
Proof.
  unfold alert_rules.
  change (fun '(service, status) => _) with service_rule.
  rewrite emitted_bind; [|framed_auto|intros; framed_auto; apply framed_service_rule].
  f_equal.
  - unfold temperature_alerts. destruct (temperature metrics) as [t|]; [|done].
    rewrite temperature_test. by destruct (80 <? t)%float.
  - replace (outcome _) with (@Ok unit tt).
    2:{ destruct (temperature metrics) as [t|]; [|done].
        by destruct (float_truthy t && float_gt_int t 80). }
    rewrite emitted_bind; [|framed_auto|intros; framed_auto; apply framed_service_rule].
    unfold getitem.
    destruct (memory metrics !! "memory_used_percent"%string) as [used|]; [|done].
    change (emitted (ret used)) with (@nil LogRecord). simpl.
    change (outcome (ret used)) with (Ok used).
    rewrite emitted_bind; [|framed_auto|intros; framed_auto; apply framed_service_rule].
    rewrite service_loop_emitted.
    by destruct (gt_int used 90).
Qed.

Lemma alert_rules_outcome (metrics : Metrics) :
  outcome (alert_rules metrics) =
    match memory metrics !! "memory_used_percent"%string with
    | Some _ => Ok tt
    | None => Raise (KeyError "memory_used_percent")
    end.
Proof.
  unfold alert_rules.
  change (fun '(service, status) => _) with service_rule.
  rewrite outcome_bind; [|framed_auto|intros; framed_auto; apply framed_service_rule].
  replace (outcome (match temperature metrics with _ => _ end)) with (@Ok unit tt).
  2:{ destruct (temperature metrics) as [t|]; [|done].
      by destruct (float_truthy t && float_gt_int t 80). }
  rewrite outcome_bind; [|framed_auto|intros; framed_auto; apply framed_service_rule].
  unfold getitem.
  destruct (memory metrics !! "memory_used_percent"%string) as [used|]; [|done].
  change (outcome (ret used)) with (Ok used). cbv beta iota.
  rewrite outcome_bind; [|framed_auto|intros; framed_auto; apply framed_service_rule].
  rewrite service_loop_outcome.
  by destruct (gt_int used 90).
Qed.

Lemma alerts_app k (l1 l2 : list LogRecord) :
  alerts k (l1 ++ l2) = alerts k l1 ++ alerts k l2.
Proof. apply List.filter_app. Qed.

Lemma alerts_service_down (names : list string) :
  alerts ServiceDown (List.map service_down names) = List.map service_down names
  /\ alerts HighTemperature (List.map service_down names) = []
  /\ alerts HighMemory (List.map service_down names) = [].
Proof.
  induction names as [|n rest (IH1 & IH2 & IH3)]; [done|].
  unfold alerts in *. simpl. by rewrite IH1, IH2, IH3.
Qed.

Lemma alerts_after_temperature k (metrics : Metrics) :
  k <> HighTemperature ->
  alerts k (temperature_alerts metrics) = [].
Proof.
  intros Hk. unfold temperature_alerts.
  destruct (temperature metrics) as [t|]; [|done].
  destruct (80 <? t)%float; [|done].
  by destruct k.
Qed.

(** With the memory figure present, the service rule gives one warning
    per service that is down, in the order of the snapshot. *)
Lemma service_rule_with_memory (metrics : Metrics) (used : pyval) :
  memory metrics !! "memory_used_percent"%string = Some used ->
  alerts ServiceDown (emitted (alert_rules metrics)) =
    List.map service_down (down (services metrics))
  /\ outcome (alert_rules metrics) = Ok tt.
Proof.
  intros Hused. rewrite alert_rules_emitted, alert_rules_outcome, Hused.
  split; [|done].
  rewrite !alerts_app, alerts_after_temperature by done.
  destruct (alerts_service_down (down (services metrics))) as (-> & _ & _).
  by destruct (gt_int used 90).
Qed.

(** Scenario C on the snapshot of a healthy host: two warnings, for
    docker and then nginx. *)
Example scenario_C_with_memory :
  alerts ServiceDown (emitted (alert_rules snapshot_ok)) =
    [service_down "docker"; service_down "nginx"]
  /\ outcome (alert_rules snapshot_ok) = Ok tt.
Proof. split; reflexivity. Qed.

(** *** Claims about the alert rules *)

(** C5: for every snapshot the high-temperature warning is written
    exactly when the temperature is present and strictly above 80.0, and
    then once, with the value in its message; 85.3 gives that one
    warning and 80.0 gives none, whatever the other fields hold. *)
Theorem high_temperature_rule :
  (forall metrics : Metrics,
     alerts HighTemperature (emitted (alert_rules metrics)) =
       match temperature metrics with
       | Some t =>
           if (80 <? t)%float
           then [{| levelname := WARNING;
                    message := [Text "High temperature detected: "; FloatArg t;
                                Text (String degree_sign "C")] |}]
           else []
       | None => []
       end)
  /\ (forall ts c m sv,
        alerts HighTemperature
          (emitted (alert_rules {| timestamp := ts; cpu := c; memory := m;
                                   temperature := Some 85.3%float;
                                   services := sv |})) =
          [{| levelname := WARNING;
              message := [Text "High temperature detected: "; FloatArg 85.3;
                          Text (String degree_sign "C")] |}])
  /\ (forall ts c m sv,
        alerts HighTemperature
          (emitted (alert_rules {| timestamp := ts; cpu := c; memory := m;
                                   temperature := Some 80%float;
                                   services := sv |})) = []).
Proof.
  assert (Hgen : forall metrics : Metrics,
             alerts HighTemperature (emitted (alert_rules metrics)) =
               temperature_alerts metrics).
  { intros metrics. rewrite alert_rules_emitted, alerts_app.
    replace (alerts HighTemperature
               (match memory metrics !! "memory_used_percent"%string with
                | Some used => _
                | None => _
                end))
      with (@nil LogRecord).
    - rewrite app_nil_r. unfold temperature_alerts.
      destruct (temperature metrics) as [t|]; [|done].
      by destruct (80 <? t)%float.
    - destruct (memory metrics !! "memory_used_percent"%string) as [used|]; [|done].
      rewrite alerts_app.
      destruct (alerts_service_down (down (services metrics))) as (_ & -> & _).
      by destruct (gt_int used 90). }
  split; [exact Hgen|].
  split; intros ts c m sv; rewrite Hgen; reflexivity.
Qed.

(** C9: the alert rules are a function of the snapshot alone: from any
    log they append the same records and return the same result, so
    evaluating a snapshot [n] times in a row gives [n] times the
    identical alert sequence. *)
Theorem alert_rules_idempotent (metrics : Metrics) :
  (forall l : list LogRecord,
     alert_rules metrics l =
       (l ++ emitted (alert_rules metrics), outcome (alert_rules metrics)))
  /\ (forall (n : nat) (l : list LogRecord),
        evaluate_repeatedly n metrics l =
          List.repeat (emitted (alert_rules metrics), outcome (alert_rules metrics)) n).
Proof.
  split; [apply framed_alert_rules|].
  induction n as [|n IH]; intros l; [done|].
  cbn [evaluate_repeatedly List.repeat].
  rewrite (framed_alert_rules metrics l).
  by rewrite drop_app_length, IH.
Qed.

(** C1: what the code does on a snapshot whose memory dict is empty (the
    memory source failed): the memory rule raises [KeyError], so the
    evaluation does not complete and the service rule is never reached. *)
Theorem memory_absent_raises_KeyError (metrics : Metrics) :
  memory metrics = ∅ ->
  outcome (alert_rules metrics) = Raise (KeyError "memory_used_percent")
  /\ alerts HighMemory (emitted (alert_rules metrics)) = []
  /\ alerts ServiceDown (emitted (alert_rules metrics)) = [].
Proof.
  intros Hmem.
  rewrite alert_rules_emitted, alert_rules_outcome, Hmem, lookup_empty.
  rewrite app_nil_r, !alerts_after_temperature by done.
  done.
Qed.

Lemma memory_absent_raises_KeyError_witness :
  memory snapshot_memory_absent = ∅
  /\ outcome (alert_rules snapshot_memory_absent) =
       Raise (KeyError "memory_used_percent")
  /\ alerts HighMemory (emitted (alert_rules snapshot_memory_absent)) = []
  /\ alerts ServiceDown (emitted (alert_rules snapshot_memory_absent)) = [].
Proof.
  split; [reflexivity|].
  apply (memory_absent_raises_KeyError snapshot_memory_absent).
  reflexivity.
Defined.

(** C6: the services of scenario C on a snapshot whose memory source
    failed: the [KeyError] of the memory rule ends the evaluation before
    the loop over the services, and no service warning is written. *)
Theorem service_alerts_lost_without_memory :
  down (services snapshot_memory_absent) = ["docker"; "nginx"]%string
  /\ alerts ServiceDown (emitted (alert_rules snapshot_memory_absent)) = []
  /\ outcome (alert_rules snapshot_memory_absent) =
       Raise (KeyError "memory_used_percent").
Proof.
  split; [reflexivity|].
  rewrite alert_rules_emitted, alert_rules_outcome.
  change (memory snapshot_memory_absent) with (∅ : gmap string pyval).
  rewrite lookup_empty, app_nil_r, alerts_after_temperature by done.
  done.
Qed.

(** ** The metric sources *)

(** Case analysis along a computation: on the result of each call it
    makes, on the optional values it tests, and on whether a handler
    catches what was raised. *)
Ltac run_step :=
  match goal with
  | x : (_ * _)%type |- _ => destruct x; simpl
  | |- context [match ?r with Ok _ => _ | Raise _ => _ end] =>
      let H := fresh "Hcall" in destruct r eqn:H; simpl
  | |- context [match ?o with Some _ => _ | None => _ end] =>
      let H := fresh "Hopt" in destruct o eqn:H; simpl
  | |- context [if is_Exception ?e then _ else _] =>
      let H := fresh "Hexn" in destruct (is_Exception e) eqn:H; simpl
  end.

Ltac run_source :=
  unfold outcome, emitted, try_except_Exception, bind, lift, ret, raise, logger;
  simpl; repeat run_step.

Lemma float_truediv_int_Ok (x : float) (count : option Z) (q : float) :
  float_truediv_int x count = Ok q ->
  exists n cores,
    count = Some n /\ n <> 0 /\ float_of_int n = Ok cores /\ q = (x / cores)%float.
Proof.
  unfold float_truediv_int. destruct count as [[|p|p]|]; try done.
  all: destruct (float_of_int _) as [cores|e] eqn:Hc; [|done].
  all: intros [= <-]; eexists _, cores; repeat split; try done.
Qed.

Lemma float_truediv_int_no_interrupt x count : no_interrupt (float_truediv_int x count).
Proof.
  unfold float_truediv_int, float_of_int.
  destruct count as [[|p|p]|]; simpl; try done.
  all: by destruct (is_infinity _).
Qed.

Lemma int_truediv_no_interrupt a b : no_interrupt (int_truediv a b).
Proof.
  unfold int_truediv.
  destruct a, b; simpl; try done.
  all: by destruct (is_infinity _).
Qed.

Lemma py_float_raises (s : string) (e : exn) : py_float s = Raise e -> e = ValueError.
Proof.
  unfold py_float.
  destruct (drop_underscores None (strip s)) as [t|]; [|congruence].
  destruct (split_sign t) as [neg u].
  destruct (_ || _); [done|].
  destruct (_ =? _)%string; [done|].
  destruct (parse_decimal neg u); congruence.
Qed.

(** *** Claims about the sources *)

(** C8: on every successful CPU sample (a dict that is not empty) each
    load figure is the load average divided by the core count, times
    100, rounded to two decimals, with nothing clamped, and the
    frequency is the int 0 when [psutil.cpu_freq()] gives [None]. *)
Theorem cpu_load_figures (env : Env) (d : gmap string pyval) :
  outcome (get_cpu_metrics env) = Ok d ->
  d <> ∅ ->
  exists (load1 load5 load15 : float) (n : Z) (cores : float),
    getloadavg env = Ok (load1, load5, load15)
    /\ cpu_count env = Ok (Some n)
    /\ n <> 0
    /\ float_of_int n = Ok cores
    /\ d !! "load_1min"%string = Some (PyFloat (py_round (load1 / cores * 100) 2))
    /\ d !! "load_5min"%string = Some (PyFloat (py_round (load5 / cores * 100) 2))
    /\ d !! "load_15min"%string = Some (PyFloat (py_round (load15 / cores * 100) 2))
    /\ (cpu_freq env 0%nat = Ok None -> d !! "cpu_freq"%string = Some (PyInt 0)).
Proof.
  unfold get_cpu_metrics. run_source.
  all: intros Hd Hne; simplify_eq; try done.
  all: repeat match goal with
         | H : float_truediv_int _ _ = Ok _ |- _ =>
             apply float_truediv_int_Ok in H;
             destruct H as (? & ? & ? & ? & ? & ->)
         end; simplify_eq.
  all: repeat match goal with
         | H1 : float_of_int ?n = Ok ?a, H2 : float_of_int ?n = Ok ?b |- _ =>
             rewrite H1 in H2; injection H2 as <-
         end.
  all: eexists _, _, _, _, _; repeat split; eauto; try done.
  all: by intros [=].
Qed.

Lemma cpu_load_figures_witness :
  outcome (get_cpu_metrics host_ok) = Ok busy_cpu
  /\ busy_cpu <> ∅
  /\ exists (load1 load5 load15 : float) (n : Z) (cores : float),
       getloadavg host_ok = Ok (load1, load5, load15)
       /\ cpu_count host_ok = Ok (Some n)
       /\ n <> 0
       /\ float_of_int n = Ok cores
       /\ busy_cpu !! "load_1min"%string = Some (PyFloat (py_round (load1 / cores * 100) 2))
       /\ busy_cpu !! "load_5min"%string = Some (PyFloat (py_round (load5 / cores * 100) 2))
       /\ busy_cpu !! "load_15min"%string = Some (PyFloat (py_round (load15 / cores * 100) 2))
       /\ (cpu_freq host_ok 0%nat = Ok None -> busy_cpu !! "cpu_freq"%string = Some (PyInt 0)).
Proof.
  assert (Hrun : outcome (get_cpu_metrics host_ok) = Ok busy_cpu) by reflexivity.
  assert (Hne : busy_cpu <> ∅).
  { intros Hempty.
    apply (f_equal (fun d : gmap string pyval => d !! "cpu_freq"%string)) in Hempty.
    discriminate Hempty. }
  split; [exact Hrun|]. split; [exact Hne|].
  exact (cpu_load_figures host_ok busy_cpu Hrun Hne).
Defined.

(** C7: when the thermal file is read and [float] accepts its content,
    the temperature is that number divided by 1000 and rounded to two
    decimals, and nothing is logged; when the file cannot be read, or
    its content is not a number, the result is [None], returned
    normally. *)
Theorem temperature_source (env : Env) :
  (forall (content : string) (millis : float),
     read_temp env = Ok content ->
     py_float (strip content) = Ok millis ->
     outcome (get_temperature env) = Ok (Some (py_round (millis / 1000) 2))
     /\ emitted (get_temperature env) = [])
  /\ (forall (content : string) (e : exn),
        read_temp env = Ok content ->
        py_float (strip content) = Raise e ->
        outcome (get_temperature env) = Ok None)
  /\ (forall e : exn,
        read_temp env = Raise e ->
        is_Exception e = true ->
        outcome (get_temperature env) = Ok None).
Proof.
  unfold get_temperature. split; [|split].
  - intros content millis Hread Hfloat. split; run_source; congruence.
  - intros content e Hread Hfloat. run_source; try congruence.
    rewrite Hread in *. simplify_eq.
    match goal with
    | H : py_float _ = Raise _ |- _ => apply py_float_raises in H; subst
    end.
    discriminate.
  - intros e Hread Hexn. run_source; congruence.
Qed.

Lemma temperature_source_witness :
  (outcome (get_temperature host_ok) = Ok (Some 45.68%float)
   /\ emitted (get_temperature host_ok) = [])
  /\ outcome (get_temperature host_garbled_sensor) = Ok None
  /\ outcome (get_temperature host_no_sensor) = Ok None.
Proof.
  split; [|split].
  - apply (proj1 (temperature_source host_ok) ("45678" ++ newline)%string 45678%float); reflexivity.
  - apply (proj1 (proj2 (temperature_source host_garbled_sensor)) "n/a"%string ValueError);
      reflexivity.
  - apply (proj2 (proj2 (temperature_source host_no_sensor))
             (OSError "No such file or directory")); reflexivity.
Defined.

(** One round of the loop of [check_dev_services] records what the
    query of its service says, and nothing else. *)
Lemma check_service_outcome (env : Env) (service : string)
    (st : list (string * bool)) :
  (forall e, query env service = Fails e -> is_Exception e = true) ->
  outcome (check_service env service st) =
    Ok (setitem st service (service_active (query env service))).
Proof.
  intros Hquery. unfold query in *.
  unfold check_service, subprocess_run, run_outcome, service_active.
  destruct (spawn env _) as [d rc out|e] eqn:Hspawn.
  - reflexivity.
  - run_source; [reflexivity|].
    rewrite (Hquery e eq_refl) in *. discriminate.
Qed.

(** The loop, over any list of services and from any dict. *)
Lemma check_services_outcome (env : Env) (todo : list string) :
  (forall service e, In service todo ->
     query env service = Fails e -> is_Exception e = true) ->
  forall st : list (string * bool),
    outcome (check_services env todo st) =
      Ok (fold_left
            (fun d service => setitem d service (service_active (query env service)))
            todo st).
Proof.
  induction todo as [|service rest IH]; intros Hquery st; [done|].
  cbn [check_services fold_left].
  rewrite outcome_bind;
    [|apply framed_check_service|intros; apply framed_check_services].
  rewrite check_service_outcome by (intros e; apply Hquery; simpl; tauto).
  apply IH. intros service' e Hin. apply Hquery. simpl. tauto.
Qed.

(** C10: whatever the four queries do, short of being interrupted,
    [check_dev_services] returns a dict whose keys are ssh, docker,
    nginx and postgresql in that order, each with the boolean that its
    own query alone decides: true for the output [active], false for
    any other output and for a query that failed. *)
Theorem check_dev_services_mapping (env : Env) :
  (forall (service : string) (e : exn),
     In service dev_services ->
     query env service = Fails e ->
     is_Exception e = true) ->
  outcome (check_dev_services env) =
    Ok [("ssh", service_active (query env "ssh"));
        ("docker", service_active (query env "docker"));
        ("nginx", service_active (query env "nginx"));
        ("postgresql", service_active (query env "postgresql"))]%string
  /\ List.map fst [("ssh", service_active (query env "ssh"));
                   ("docker", service_active (query env "docker"));
                   ("nginx", service_active (query env "nginx"));
                   ("postgresql", service_active (query env "postgresql"))]%string
     = dev_services.
Proof.
  intros Hquery. split; [|reflexivity].
  unfold check_dev_services.
  rewrite (check_services_outcome env dev_services Hquery []).
  reflexivity.
Qed.

Lemma check_dev_services_mapping_witness :
  (forall (service : string) (e : exn),
     In service dev_services ->
     query host_ok service = Fails e ->
     is_Exception e = true)
  /\ outcome (check_dev_services host_ok) = Ok host_services
  /\ List.map fst host_services = dev_services.
Proof.
  assert (Hquery : forall (service : string) (e : exn),
             In service dev_services ->
             query host_ok service = Fails e ->
             is_Exception e = true).
  { intros service e Hin.
    simpl in Hin. destruct Hin as [<-|[<-|[<-|[<-|[]]]]]; vm_compute.
    all: intros [= <-]; reflexivity. }
  split; [exact Hquery|].
  exact (check_dev_services_mapping host_ok Hquery).
Defined.

(** ** The collector *)

(** Closes a case in which a call is supposed to have raised something
    that is not an [Exception]. *)
Ltac no_interrupt_here :=
  match goal with
  | H : no_interrupt (Raise ?e), Hx : is_Exception ?e = false |- _ =>
      simpl in H; congruence
  | Hc : ?r = Raise ?e, Hx : is_Exception ?e = false |- _ =>
      let H := fresh in
      assert (H : no_interrupt r)
        by first [ assumption
                 | apply float_truediv_int_no_interrupt
                 | apply int_truediv_no_interrupt
                 | match goal with Hf : forall n, no_interrupt _ |- _ => apply Hf end ];
      rewrite Hc in H; simpl in H; congruence
  end.

Lemma get_cpu_metrics_returns (env : Env) :
  no_interrupt (getloadavg env) ->
  no_interrupt (cpu_count env) ->
  no_interrupt (cpu_percent env) ->
  (forall n, no_interrupt (cpu_freq env n)) ->
  exists d,
    outcome (get_cpu_metrics env) = Ok d
    /\ (cpu_source_fails env -> d = ∅).
Proof.
  intros H1 H2 H3 H4. unfold get_cpu_metrics. run_source.
  all: try no_interrupt_here.
  all: eexists; split; [reflexivity|].
  all: intros Hfail; try reflexivity.
  all: repeat match goal with
         | H : float_truediv_int _ _ = Ok _ |- _ =>
             apply float_truediv_int_Ok in H;
             destruct H as (? & ? & ? & ? & ? & ?)
         end.
  all: destruct Hfail
         as [(e' & ?)|[(e' & ?)|[?|[?|[(e' & ?)|[(e' & ?)|(f' & ? & [(e' & ?)|?])]]]]]];
       congruence.
Qed.

Lemma get_memory_metrics_returns (env : Env) :
  no_interrupt (virtual_memory env) ->
  no_interrupt (swap_memory env) ->
  exists d,
    outcome (get_memory_metrics env) = Ok d
    /\ (memory_source_fails env -> d = ∅).
Proof.
  intros H1 H2. unfold get_memory_metrics. run_source.
  all: try no_interrupt_here.
  all: eexists; split; [reflexivity|].
  all: intros Hfail; try reflexivity.
  all: destruct Hfail as [(e' & ?)|(e' & ?)]; congruence.
Qed.

Lemma get_temperature_returns (env : Env) :
  no_interrupt (read_temp env) ->
  exists t,
    outcome (get_temperature env) = Ok t
    /\ (temperature_source_fails env -> t = None).
Proof.
  intros H1. unfold get_temperature. run_source.
  all: try no_interrupt_here.
  all: try match goal with
         | H : py_float _ = Raise _ |- _ =>
             apply py_float_raises in H; subst; discriminate
         end.
  all: eexists; split; [reflexivity|].
  all: intros Hfail; try reflexivity.
  all: destruct Hfail as [(e' & ?)|(content & e' & ? & ?)]; congruence.
Qed.

Lemma failed_query_is_false (env : Env) (service : string) (e : exn) :
  In service dev_services ->
  query env service = Fails e ->
  In (service, false)
     [("ssh", service_active (query env "ssh"));
      ("docker", service_active (query env "docker"));
      ("nginx", service_active (query env "nginx"));
      ("postgresql", service_active (query env "postgresql"))]%string.
Proof.
  intros Hin Hfail. simpl in Hin.
  destruct Hin as [<-|[<-|[<-|[<-|[]]]]]; rewrite Hfail; simpl; tauto.
Qed.

(** Whatever the host does, no [Exception] leaves a source or the
    collector: a handler that returns normally contains them all. *)
Lemma contains_errors_try {A} (body : M A) (handler : exn -> M A) :
  framed body -> (forall e, framed (handler e)) ->
  (forall e, exists a, outcome (handler e) = Ok a) ->
  contains_errors (try_except_Exception body handler).
Proof.
  intros Hb Hh Hok e. rewrite outcome_try by done.
  destruct (outcome body) as [a|e']; [done|].
  destruct (is_Exception e') eqn:He'.
  - destruct (Hok e') as [a ->]. done.
  - by intros [= <-].
Qed.

Lemma contains_errors_bind {A B} (m : M A) (k : A -> M B) :
  framed m -> (forall a, framed (k a)) ->
  contains_errors m -> (forall a, contains_errors (k a)) ->
  contains_errors (bind m k).
Proof.
  intros Hm Hk Hcm Hck e. rewrite outcome_bind by done.
  destruct (outcome m) as [a|e'] eqn:Hout.
  - apply Hck.
  - intros [= <-]. by apply Hcm.
Qed.

Lemma contains_errors_ret {A} (a : A) : contains_errors (ret a).
Proof. intros e. discriminate. Qed.

Lemma contains_errors_check_services (env : Env) (todo : list string) :
  forall st, contains_errors (check_services env todo st).
Proof.
  induction todo as [|service rest IH]; intros st; cbn [check_services].
  - apply contains_errors_ret.
  - apply contains_errors_bind;
      [apply framed_check_service|intros; apply framed_check_services| |apply IH].
    unfold check_service, subprocess_run.
    apply contains_errors_try; [framed_auto|framed_auto|].
    intros e. by eexists.
Qed.

Lemma sources_contain_errors (env : Env) :
  contains_errors (get_cpu_metrics env)
  /\ contains_errors (get_memory_metrics env)
  /\ contains_errors (get_temperature env)
  /\ contains_errors (check_dev_services env).
Proof.
  repeat split.
  - unfold get_cpu_metrics.
    apply contains_errors_try; [framed_auto|framed_auto|intros e; by eexists].
  - unfold get_memory_metrics.
    apply contains_errors_try; [framed_auto|framed_auto|intros e; by eexists].
  - unfold get_temperature.
    apply contains_errors_try; [framed_auto|framed_auto|intros e; by eexists].
  - apply contains_errors_check_services.
Qed.

Lemma collector_contains_errors (env : Env) : contains_errors (get_all_metrics env).
Proof.
  destruct (sources_contain_errors env) as (Hcpu & Hmem & Htemp & Hsvc).
  unfold get_all_metrics.
  apply contains_errors_bind; [framed_auto|framed_auto|exact Hcpu|intros c].
  apply contains_errors_bind; [framed_auto|framed_auto|exact Hmem|intros m].
  apply contains_errors_bind; [framed_auto|framed_auto|exact Htemp|intros t].
  apply contains_errors_bind; [framed_auto|framed_auto|exact Hsvc|intros sv].
  apply contains_errors_ret.
Qed.

Example collected_on_host_ok :
  outcome (get_all_metrics host_ok) = Ok snapshot_ok.
Proof. vm_compute. reflexivity. Qed.

Example collected_without_memory :
  outcome (get_all_metrics host_memory_down) = Ok snapshot_memory_absent.
Proof. vm_compute. reflexivity. Qed.

(** C4: the collector returns a snapshot for every combination of
    outcomes of its sources, a source being a call that returns or
    fails with an [Exception]: nothing is raised, and a source that
    failed leaves an empty dict (CPU, memory), [None] (temperature) or
    [False] (a service) in the snapshot. *)
Theorem collector_never_fails (env : Env) :
  sources_answer env ->
  exists metrics : Metrics,
    outcome (get_all_metrics env) = Ok metrics
    /\ timestamp metrics = now_isoformat env
    /\ (cpu_source_fails env -> cpu metrics = ∅)
    /\ (memory_source_fails env -> memory metrics = ∅)
    /\ (temperature_source_fails env -> temperature metrics = None)
    /\ (forall service e, In service dev_services ->
          query env service = Fails e -> In (service, false) (services metrics))
    /\ List.map fst (services metrics) = dev_services.
Proof.
  intros [H1 H2 H3 H4 H5 H6 H7 H8].
  destruct (get_cpu_metrics_returns env H1 H2 H3 H4) as (c & Hc & Hc0).
  destruct (get_memory_metrics_returns env H5 H6) as (m & Hm & Hm0).
  destruct (get_temperature_returns env H7) as (t & Ht & Ht0).
  assert (Hs : outcome (check_dev_services env) =
               Ok [("ssh", service_active (query env "ssh"));
                   ("docker", service_active (query env "docker"));
                   ("nginx", service_active (query env "nginx"));
                   ("postgresql", service_active (query env "postgresql"))]%string).
  { unfold check_dev_services.
    by rewrite (check_services_outcome env dev_services H8 []). }
  eexists. split.
  - unfold get_all_metrics.
    rewrite outcome_bind, Hc by framed_auto.
    rewrite outcome_bind, Hm by framed_auto.
    rewrite outcome_bind, Ht by framed_auto.
    rewrite outcome_bind, Hs by framed_auto.
    reflexivity.
  - simpl. repeat split; try assumption.
    intros service e. apply failed_query_is_false.
Qed.

Lemma host_memory_down_answers : sources_answer host_memory_down.
Proof.
  split; try exact I; try reflexivity; try (intros n; exact I).
  intros service e Hin.
  simpl in Hin. destruct Hin as [<-|[<-|[<-|[<-|[]]]]]; vm_compute.
  all: intros [= <-]; reflexivity.
Defined.

Lemma collector_never_fails_witness :
  sources_answer host_memory_down
  /\ exists metrics : Metrics,
       outcome (get_all_metrics host_memory_down) = Ok metrics
       /\ timestamp metrics = now_isoformat host_memory_down
       /\ (cpu_source_fails host_memory_down -> cpu metrics = ∅)
       /\ (memory_source_fails host_memory_down -> memory metrics = ∅)
       /\ (temperature_source_fails host_memory_down -> temperature metrics = None)
       /\ (forall service e, In service dev_services ->
             query host_memory_down service = Fails e ->
             In (service, false) (services metrics))
       /\ List.map fst (services metrics) = dev_services.
Proof.
  split; [exact host_memory_down_answers|].
  exact (collector_never_fails host_memory_down host_memory_down_answers).
Defined.

(** ** The service queries *)

(** With a timeout, a call of [subprocess.run] blocks no longer than
    the timeout. *)
Lemma run_with_timeout_is_bounded (r : RunArgs) (t : N) (p : proc) :
  timeout r = Some t -> (snd (run_outcome r p) <= t)%N.
Proof.
  intros Ht. unfold run_outcome. rewrite Ht.
  destruct p as [d rc out|e]; simpl; [|lia].
  destruct (t <? d)%N eqn:Hlt; simpl; [lia|].
  apply N.ltb_ge in Hlt. lia.
Qed.

(** C3, as the code has it: the query of a service is made without a
    timeout, so the call lasts exactly as long as the command does,
    however long that is; and a query that raises any [Exception], as
    an expired timeout would, counts as that service being down. *)
Theorem service_query_has_no_timeout (service : string) :
  timeout (systemctl_request service) = None
  /\ (forall (d : N) (rc : Z) (out : string),
        run_outcome (systemctl_request service) (Exits d rc out) =
          (Ok {| returncode := rc; stdout := Some out |}, d))
  /\ (forall (env : Env) (st : list (string * bool)) (e : exn),
        query env service = Fails e ->
        is_Exception e = true ->
        outcome (check_service env service st) = Ok (setitem st service false)).
Proof.
  split; [reflexivity|]. split; [reflexivity|].
  intros env st e Hq He. unfold query in Hq.
  unfold check_service, subprocess_run, run_outcome. rewrite Hq.
  run_source; congruence.
Qed.

Lemma service_query_has_no_timeout_witness :
  query host_ok "nginx" = Fails (OSError "systemctl: not found")
  /\ is_Exception (OSError "systemctl: not found") = true
  /\ outcome (check_service host_ok "nginx" []) = Ok [("nginx"%string, false)].
Proof.
  split; [reflexivity|]. split; [reflexivity|].
  apply (proj2 (proj2 (service_query_has_no_timeout "nginx")) host_ok []
           (OSError "systemctl: not found")); reflexivity.
Defined.

(** C3, as stated, fails: the query for docker carries no timeout, and
    a command that takes a day to answer blocks the check for a day. *)
Lemma service_query_timeout_counterexample :
  In "docker"%string dev_services
  /\ timeout (systemctl_request "docker") = None
  /\ run_outcome (systemctl_request "docker") (Exits 86400000 0 "active") =
       (Ok {| returncode := 0; stdout := Some "active"%string |}, 86400000%N).
Proof. split; [simpl; tauto|]. split; reflexivity. Qed.

(** ** The loop *)

(** [start_monitoring] in terms of what its loop writes and raises. *)
Lemma start_monitoring_unfold (ticks : list Env) (interval : Z) (l : list LogRecord) :
  start_monitoring ticks interval l =
    let written := l ++ [starting] ++ emitted (monitor_loop ticks interval) in
    match outcome (monitor_loop ticks interval) with
    | Ok tt => (written, Running)
    | Raise KeyboardInterrupt => (written ++ [stopped_by_user], Returned)
    | Raise e =>
        if is_Exception e
        then (written ++ [monitoring_error e], Returned)
        else (written, Propagated e)
    end.
Proof.
  unfold start_monitoring, bind. cbn [logger].
  rewrite (framed_monitor_loop ticks interval (l ++ _)).
  rewrite <- app_assoc.
  destruct (outcome (monitor_loop ticks interval)) as [[]|e]; [done|].
  by destruct e.
Qed.

(** A tick that raises ends the loop there: the ticks after it add
    nothing. *)
Lemma monitor_loop_raises (before : list Env) (env : Env) (later : list Env)
    (interval : Z) (e : exn) :
  outcome (monitor_loop before interval) = Ok tt ->
  outcome (monitor_tick env interval) = Raise e ->
  outcome (monitor_loop (before ++ env :: later) interval) = Raise e
  /\ emitted (monitor_loop (before ++ env :: later) interval) =
       emitted (monitor_loop before interval) ++ emitted (monitor_tick env interval).
Proof.
  intros Hbefore Htick.
  induction before as [|first before IH]; cbn [app monitor_loop] in *.
  - rewrite outcome_bind, emitted_bind, Htick;
      [|apply framed_monitor_tick|intros; apply framed_monitor_loop
       |apply framed_monitor_tick|intros; apply framed_monitor_loop].
    by rewrite app_nil_r.
  - rewrite outcome_bind in Hbefore;
      [|apply framed_monitor_tick|intros; apply framed_monitor_loop].
    rewrite outcome_bind;
      [|apply framed_monitor_tick|intros; apply framed_monitor_loop].
    rewrite !emitted_bind;
      [|apply framed_monitor_tick|intros; apply framed_monitor_loop
       |apply framed_monitor_tick|intros; apply framed_monitor_loop].
    destruct (outcome (monitor_tick first interval)) as [[]|e']; [|done].
    destruct (IH Hbefore) as [-> ->].
    by rewrite app_assoc.
Qed.

Lemma monitor_loop_runs (ticks : list Env) (interval : Z) :
  (forall env, In env ticks -> outcome (monitor_tick env interval) = Ok tt) ->
  outcome (monitor_loop ticks interval) = Ok tt.
Proof.
  induction ticks as [|env later IH]; intros Hticks; [done|].
  cbn [monitor_loop].
  rewrite outcome_bind;
    [|apply framed_monitor_tick|intros; apply framed_monitor_loop].
  rewrite (Hticks env) by (simpl; tauto).
  apply IH. intros env' Hin. apply Hticks. simpl. tauto.
Qed.

(** C2, as the code has it: the handlers of [start_monitoring] stand
    outside the loop.  An [Exception] that escapes a tick is logged and
    ends the monitoring: the call returns and no later tick runs.  A
    [KeyboardInterrupt] ends it the same way with its own message; a
    [SystemExit] passes through both handlers.  As long as no tick
    raises, the loop goes on. *)
Theorem escaped_error_ends_monitoring (interval : Z) (l : list LogRecord) :
  (forall (before : list Env) (env : Env) (later : list Env) (e : exn),
     outcome (monitor_loop before interval) = Ok tt ->
     outcome (monitor_tick env interval) = Raise e ->
     is_Exception e = true ->
     start_monitoring (before ++ env :: later) interval l =
       (l ++ [{| levelname := INFO;
                 message := [Text "Starting development environment monitoring"] |}]
          ++ emitted (monitor_loop before interval)
          ++ emitted (monitor_tick env interval)
          ++ [{| levelname := ERROR;
                 message := [Text "Monitoring error: "; ExnArg e] |}],
        Returned))
  /\ (forall (before : list Env) (env : Env) (later : list Env),
        outcome (monitor_loop before interval) = Ok tt ->
        outcome (monitor_tick env interval) = Raise KeyboardInterrupt ->
        start_monitoring (before ++ env :: later) interval l =
          (l ++ [{| levelname := INFO;
                    message := [Text "Starting development environment monitoring"] |}]
             ++ emitted (monitor_loop before interval)
             ++ emitted (monitor_tick env interval)
             ++ [{| levelname := INFO;
                    message := [Text "Monitoring stopped by user"] |}],
           Returned))
  /\ (forall (before : list Env) (env : Env) (later : list Env),
        outcome (monitor_loop before interval) = Ok tt ->
        outcome (monitor_tick env interval) = Raise SystemExit ->
        start_monitoring (before ++ env :: later) interval l =
          (l ++ [{| levelname := INFO;
                    message := [Text "Starting development environment monitoring"] |}]
             ++ emitted (monitor_loop before interval)
             ++ emitted (monitor_tick env interval),
           Propagated SystemExit))
  /\ (forall ticks : list Env,
        (forall env, In env ticks -> outcome (monitor_tick env interval) = Ok tt) ->
        snd (start_monitoring ticks interval l) = Running).
Proof.
  split; [|split; [|split]].
  - intros before env later e Hbefore Htick He.
    rewrite start_monitoring_unfold.
    destruct (monitor_loop_raises before env later interval e Hbefore Htick)
      as [-> ->].
    cbv zeta. rewrite He.
    destruct e; try discriminate He; by rewrite <- !app_assoc.
  - intros before env later Hbefore Htick.
    rewrite start_monitoring_unfold.
    destruct (monitor_loop_raises before env later interval _ Hbefore Htick)
      as [-> ->].
    cbv zeta. by rewrite <- !app_assoc.
  - intros before env later Hbefore Htick.
    rewrite start_monitoring_unfold.
    destruct (monitor_loop_raises before env later interval _ Hbefore Htick)
      as [-> ->].
    cbv zeta. simpl. by rewrite <- ?app_assoc.
  - intros ticks Hticks.
    rewrite start_monitoring_unfold, (monitor_loop_runs ticks interval Hticks).
    reflexivity.
Qed.

Lemma escaped_error_ends_monitoring_witness :
  outcome (monitor_loop [host_ok] default_interval) = Ok tt
  /\ outcome (monitor_tick host_memory_down default_interval) =
       Raise (KeyError "memory_used_percent")
  /\ is_Exception (KeyError "memory_used_percent") = true
  /\ start_monitoring ([host_ok] ++ host_memory_down :: [host_ok]) default_interval [] =
       ([] ++ [{| levelname := INFO;
                  message := [Text "Starting development environment monitoring"] |}]
           ++ emitted (monitor_loop [host_ok] default_interval)
           ++ emitted (monitor_tick host_memory_down default_interval)
           ++ [{| levelname := ERROR;
                  message := [Text "Monitoring error: ";
                              ExnArg (KeyError "memory_used_percent")] |}],
        Returned).
Proof.
  assert (H1 : outcome (monitor_loop [host_ok] default_interval) = Ok tt)
    by (vm_compute; reflexivity).
  assert (H2 : outcome (monitor_tick host_memory_down default_interval) =
               Raise (KeyError "memory_used_percent"))
    by (vm_compute; reflexivity).
  assert (H3 : is_Exception (KeyError "memory_used_percent") = true) by reflexivity.
  split; [exact H1|]. split; [exact H2|]. split; [exact H3|].
  exact (proj1 (escaped_error_ends_monitoring default_interval [])
           [host_ok] host_memory_down [host_ok] _ H1 H2 H3).
Defined.

(** C2, as stated, fails: on a host whose memory source is down the
    first tick raises [KeyError] in the memory rule; no stop signal was
    given, yet the call has returned after that tick, its last record
    the error, and the second tick never ran. *)
Lemma error_ends_loop_counterexample :
  sleep host_memory_down = Ok tt
  /\ outcome (monitor_tick host_memory_down default_interval) =
       Raise (KeyError "memory_used_percent")
  /\ snd (start_monitoring [host_memory_down; host_ok] default_interval []) = Returned
  /\ last (fst (start_monitoring [host_memory_down; host_ok] default_interval [])) =
       Some {| levelname := ERROR;
               message := [Text "Monitoring error: ";
                           ExnArg (KeyError "memory_used_percent")] |}
  /\ start_monitoring [host_memory_down; host_ok] default_interval [] =
       start_monitoring [host_memory_down] default_interval [].
Proof. repeat split; vm_compute; reflexivity. Qed.

(** ** Further properties: what the sources log *)

Lemma cpu_log_cases (env : Env) :
  emitted (get_cpu_metrics env) = []
  \/ exists e, emitted (get_cpu_metrics env) = [error_record "Error getting CPU metrics: " e].
Proof. unfold get_cpu_metrics. run_source; eauto. Qed.

Lemma memory_log_cases (env : Env) :
  emitted (get_memory_metrics env) = []
  \/ exists e,
       emitted (get_memory_metrics env) = [error_record "Error getting memory metrics: " e].
Proof. unfold get_memory_metrics. run_source; eauto. Qed.

Lemma temperature_log_cases (env : Env) :
  emitted (get_temperature env) = []
  \/ exists e,
       emitted (get_temperature env) = [error_record "Error reading temperature: " e].
Proof. unfold get_temperature. run_source; eauto. Qed.

(** X1: a CPU sample is all or nothing.  Whenever [get_cpu_metrics]
    returns, its dict is either empty, and then exactly one error record
    was written, for an [Exception]; or it has exactly the five keys,
    and then nothing was written. *)
Theorem cpu_sample_all_or_nothing (env : Env) (d : gmap string pyval) :
  outcome (get_cpu_metrics env) = Ok d ->
  (d = ∅
   /\ exists e, is_Exception e = true
               /\ emitted (get_cpu_metrics env) =
                    [{| levelname := ERROR;
                        message := [Text "Error getting CPU metrics: "; ExnArg e] |}])
  \/ (dom d = cpu_keys /\ emitted (get_cpu_metrics env) = []).
Proof.
  unfold get_cpu_metrics. run_source.
  all: intros Hd; simplify_eq.
  all: try (left; split; [reflexivity|];
            refine (ex_intro _ _ (conj _ eq_refl));
            first [eassumption|reflexivity]).
  all: right; split; [|reflexivity].
  all: unfold cpu_keys; rewrite !dom_insert_L, dom_empty_L; set_solver.
Qed.

Lemma cpu_sample_all_or_nothing_witness :
  outcome (get_cpu_metrics host_ok) = Ok busy_cpu
  /\ ((busy_cpu = ∅
       /\ exists e, is_Exception e = true
                   /\ emitted (get_cpu_metrics host_ok) =
                        [{| levelname := ERROR;
                            message := [Text "Error getting CPU metrics: "; ExnArg e] |}])
      \/ (dom busy_cpu = cpu_keys /\ emitted (get_cpu_metrics host_ok) = [])).
Proof.
  assert (Hrun : outcome (get_cpu_metrics host_ok) = Ok busy_cpu) by reflexivity.
  split; [exact Hrun|].
  exact (cpu_sample_all_or_nothing host_ok busy_cpu Hrun).
Defined.

(** X17: the two figures of a CPU sample that are passed on as they
    come.  On a successful sample the utilisation is what
    [psutil.cpu_percent] returned; and when the frequency is known, the
    one reported is the [current] of a second reading of
    [psutil.cpu_freq()], the first reading being only tested for
    presence. *)
Theorem cpu_passthrough_figures (env : Env) (d : gmap string pyval) :
  outcome (get_cpu_metrics env) = Ok d ->
  d <> ∅ ->
  (exists percent,
     cpu_percent env = Ok percent
     /\ d !! "cpu_percent"%string = Some (PyFloat percent))
  /\ (forall first,
        cpu_freq env 0%nat = Ok (Some first) ->
        exists second,
          cpu_freq env 1%nat = Ok (Some second)
          /\ d !! "cpu_freq"%string = Some (PyFloat (current second))).
Proof.
  unfold get_cpu_metrics. run_source.
  all: intros Hd Hne; simplify_eq; try done.
  all: split; [eexists; split; reflexivity|].
  all: intros first Hfirst; simplify_eq.
  all: eexists; split; reflexivity.
Qed.

Lemma cpu_passthrough_figures_witness :
  outcome (get_cpu_metrics host_scaling) = Ok scaling_cpu
  /\ scaling_cpu <> ∅
  /\ (exists percent,
        cpu_percent host_scaling = Ok percent
        /\ scaling_cpu !! "cpu_percent"%string = Some (PyFloat percent))
  /\ (exists second,
        cpu_freq host_scaling 1%nat = Ok (Some second)
        /\ scaling_cpu !! "cpu_freq"%string = Some (PyFloat (current second)))
  /\ scaling_cpu !! "cpu_freq"%string = Some (PyFloat 1500).
Proof.
  assert (Hrun : outcome (get_cpu_metrics host_scaling) = Ok scaling_cpu)
    by reflexivity.
  assert (Hne : scaling_cpu <> ∅).
  { intros Hempty.
    apply (f_equal (fun d : gmap string pyval => d !! "cpu_freq"%string)) in Hempty.
    discriminate Hempty. }
  split; [exact Hrun|]. split; [exact Hne|].
  destruct (cpu_passthrough_figures host_scaling scaling_cpu Hrun Hne)
    as [Hpercent Hfreq].
  split; [exact Hpercent|]. split; [|reflexivity].
  exact (Hfreq _ eq_refl).
Defined.

(** X2: a memory sample is all or nothing as well.  An empty dict comes
    with exactly one error record; otherwise the dict has exactly four
    keys: the two percentages as psutil gave them, unrounded, and the
    available memory and the free swap in units of 1024^3 bytes, rounded
    to two decimals; then nothing was written. *)
Theorem memory_sample_figures (env : Env) (d : gmap string pyval) :
  outcome (get_memory_metrics env) = Ok d ->
  (d = ∅
   /\ exists e, is_Exception e = true
               /\ emitted (get_memory_metrics env) =
                    [{| levelname := ERROR;
                        message := [Text "Error getting memory metrics: "; ExnArg e] |}])
  \/ (exists (mem : svmem) (swap : sswap) (available_gb free_gb : float),
        virtual_memory env = Ok mem
        /\ swap_memory env = Ok swap
        /\ int_truediv (vm_available mem) (1024 ^ 3) = Ok available_gb
        /\ int_truediv (sw_free swap) (1024 ^ 3) = Ok free_gb
        /\ d !! "memory_used_percent"%string = Some (PyFloat (vm_percent mem))
        /\ d !! "memory_available_gb"%string = Some (PyFloat (py_round available_gb 2))
        /\ d !! "swap_used_percent"%string = Some (PyFloat (sw_percent swap))
        /\ d !! "swap_free_gb"%string = Some (PyFloat (py_round free_gb 2))
        /\ dom d = {[ "memory_used_percent"; "memory_available_gb";
                      "swap_used_percent"; "swap_free_gb" ]}%string
        /\ emitted (get_memory_metrics env) = []).
Proof.
  unfold get_memory_metrics. run_source.
  all: intros Hd; simplify_eq.
  all: try (left; split; [reflexivity|];
            refine (ex_intro _ _ (conj _ eq_refl));
            first [eassumption|reflexivity]).
  right. eexists _, _, _, _.
  repeat split; try eassumption; reflexivity.
Qed.

Lemma memory_sample_figures_witness :
  outcome (get_memory_metrics host_ok) = Ok (memory snapshot_ok)
  /\ memory snapshot_ok !! "memory_available_gb"%string = Some (PyFloat 2)
  /\ ((memory snapshot_ok = ∅
       /\ exists e, is_Exception e = true
                   /\ emitted (get_memory_metrics host_ok) =
                        [{| levelname := ERROR;
                            message := [Text "Error getting memory metrics: ";
                                        ExnArg e] |}])
      \/ (exists (mem : svmem) (swap : sswap) (available_gb free_gb : float),
            virtual_memory host_ok = Ok mem
            /\ swap_memory host_ok = Ok swap
            /\ int_truediv (vm_available mem) (1024 ^ 3) = Ok available_gb
            /\ int_truediv (sw_free swap) (1024 ^ 3) = Ok free_gb
            /\ memory snapshot_ok !! "memory_used_percent"%string =
                 Some (PyFloat (vm_percent mem))
            /\ memory snapshot_ok !! "memory_available_gb"%string =
                 Some (PyFloat (py_round available_gb 2))
            /\ memory snapshot_ok !! "swap_used_percent"%string =
                 Some (PyFloat (sw_percent swap))
            /\ memory snapshot_ok !! "swap_free_gb"%string =
                 Some (PyFloat (py_round free_gb 2))
            /\ dom (memory snapshot_ok) =
                 {[ "memory_used_percent"; "memory_available_gb";
                    "swap_used_percent"; "swap_free_gb" ]}%string
            /\ emitted (get_memory_metrics host_ok) = [])).
Proof.
  assert (Hrun : outcome (get_memory_metrics host_ok) = Ok (memory snapshot_ok))
    by (vm_compute; reflexivity).
  split; [exact Hrun|]. split; [reflexivity|].
  exact (memory_sample_figures host_ok (memory snapshot_ok) Hrun).
Defined.

(** X3: the temperature source writes to the log exactly when it has no
    reading: a returned temperature comes with no record, [None] comes
    with exactly one error record, for an [Exception]. *)
Theorem temperature_logs_iff_absent (env : Env) (t : option float) :
  outcome (get_temperature env) = Ok t ->
  match t with
  | Some _ => emitted (get_temperature env) = []
  | None =>
      exists e, is_Exception e = true
                /\ emitted (get_temperature env) =
                     [{| levelname := ERROR;
                         message := [Text "Error reading temperature: "; ExnArg e] |}]
  end.
Proof.
  unfold get_temperature. run_source.
  all: intros Ht; simplify_eq; try reflexivity.
  all: refine (ex_intro _ _ (conj _ eq_refl)); first [eassumption|reflexivity].
Qed.

Lemma temperature_logs_iff_absent_witness :
  (outcome (get_temperature host_ok) = Ok (Some 45.68%float)
   /\ emitted (get_temperature host_ok) = [])
  /\ (outcome (get_temperature host_garbled_sensor) = Ok None
      /\ exists e, is_Exception e = true
                  /\ emitted (get_temperature host_garbled_sensor) =
                       [{| levelname := ERROR;
                           message := [Text "Error reading temperature: "; ExnArg e] |}]).
Proof.
  assert (H1 : outcome (get_temperature host_ok) = Ok (Some 45.68%float)) by reflexivity.
  assert (H2 : outcome (get_temperature host_garbled_sensor) = Ok None) by reflexivity.
  split; split; [exact H1| |exact H2|].
  - exact (temperature_logs_iff_absent host_ok _ H1).
  - exact (temperature_logs_iff_absent host_garbled_sensor _ H2).
Defined.

(** ** Further properties: the service queries and the collector *)

Lemma check_service_emitted (env : Env) (service : string)
    (st : list (string * bool)) :
  (forall e, query env service = Fails e -> is_Exception e = true) ->
  emitted (check_service env service st) = query_errors env [service].
Proof.
  intros Hquery. unfold query_errors, query in *. cbn [flat_map].
  unfold check_service, subprocess_run, run_outcome.
  destruct (spawn env _) as [d rc out|e] eqn:Hspawn.
  - reflexivity.
  - run_source; [reflexivity|].
    rewrite (Hquery e eq_refl) in *. discriminate.
Qed.

Lemma query_errors_cons (env : Env) (service : string) (rest : list string) :
  query_errors env (service :: rest) =
    query_errors env [service] ++ query_errors env rest.
Proof. unfold query_errors. cbn [flat_map]. by rewrite app_nil_r. Qed.

Lemma check_services_emitted (env : Env) (todo : list string) :
  (forall service e, In service todo ->
     query env service = Fails e -> is_Exception e = true) ->
  forall st : list (string * bool),
    emitted (check_services env todo st) = query_errors env todo.
Proof.
  induction todo as [|service rest IH]; intros Hquery st; [done|].
  cbn [check_services].
  rewrite emitted_bind;
    [|apply framed_check_service|intros; apply framed_check_services].
  assert (Hthis : forall e, query env service = Fails e -> is_Exception e = true)
    by (intros e; apply Hquery; simpl; tauto).
  rewrite check_service_emitted, check_service_outcome by exact Hthis.
  rewrite IH by (intros service' e Hin; apply Hquery; simpl; tauto).
  by rewrite (query_errors_cons env service rest).
Qed.

Lemma query_errors_length (env : Env) (todo : list string) :
  (length (query_errors env todo) <= length todo)%nat.
Proof.
  induction todo as [|service rest IH]; [done|].
  rewrite query_errors_cons, length_app.
  unfold query_errors at 1. cbn [flat_map].
  destruct (query env service); simpl; lia.
Qed.

(** X4: [check_dev_services] writes one error record for each query
    that failed, naming the service and the exception, in the order of
    the services, and nothing for a query that answered, whatever its
    answer and its return code. *)
Theorem service_errors_logged (env : Env) :
  (forall (service : string) (e : exn),
     In service dev_services ->
     query env service = Fails e ->
     is_Exception e = true) ->
  emitted (check_dev_services env) =
    flat_map
      (fun service =>
         match query env service with
         | Fails e =>
             [{| levelname := ERROR;
                 message := [Text "Error checking "; StrArg service;
                             Text " status: "; ExnArg e] |}]
         | Exits _ _ _ => []
         end)
      dev_services
  /\ (length (emitted (check_dev_services env)) <= 4)%nat.
Proof.
  intros Hquery. unfold check_dev_services.
  rewrite (check_services_emitted env dev_services Hquery []).
  split; [reflexivity|].
  apply (query_errors_length env dev_services).
Qed.

Lemma service_errors_logged_witness :
  (forall (service : string) (e : exn),
     In service dev_services ->
     query host_ok service = Fails e ->
     is_Exception e = true)
  /\ emitted (check_dev_services host_ok) =
       [{| levelname := ERROR;
           message := [Text "Error checking "; StrArg "nginx"; Text " status: ";
                       ExnArg (OSError "systemctl: not found")] |}].
Proof.
  assert (Hquery : forall (service : string) (e : exn),
             In service dev_services ->
             query host_ok service = Fails e ->
             is_Exception e = true).
  { intros service e Hin.
    simpl in Hin. destruct Hin as [<-|[<-|[<-|[<-|[]]]]]; vm_compute.
    all: intros [= <-]; reflexivity. }
  split; [exact Hquery|].
  exact (proj1 (service_errors_logged host_ok Hquery)).
Defined.

(** What the collector returns and writes, in terms of its sources. *)
Lemma collected_fields (env : Env) (metrics : Metrics) :
  outcome (get_all_metrics env) = Ok metrics ->
  timestamp metrics = now_isoformat env
  /\ outcome (get_cpu_metrics env) = Ok (cpu metrics)
  /\ outcome (get_memory_metrics env) = Ok (memory metrics)
  /\ outcome (get_temperature env) = Ok (temperature metrics)
  /\ outcome (check_dev_services env) = Ok (services metrics).
Proof.
  unfold get_all_metrics.
  rewrite outcome_bind by framed_auto.
  destruct (outcome (get_cpu_metrics env)) as [c|e]; [|done].
  rewrite outcome_bind by framed_auto.
  destruct (outcome (get_memory_metrics env)) as [m|e]; [|done].
  rewrite outcome_bind by framed_auto.
  destruct (outcome (get_temperature env)) as [t|e]; [|done].
  rewrite outcome_bind by framed_auto.
  destruct (outcome (check_dev_services env)) as [sv|e]; [|done].
  by intros [= <-].
Qed.

Lemma collected_log (env : Env) (metrics : Metrics) :
  outcome (get_all_metrics env) = Ok metrics ->
  emitted (get_all_metrics env) =
    emitted (get_cpu_metrics env) ++ emitted (get_memory_metrics env)
    ++ emitted (get_temperature env) ++ emitted (check_dev_services env).
Proof.
  intros Hall. destruct (collected_fields env metrics Hall) as (_ & Hc & Hm & Ht & Hs).
  unfold get_all_metrics.
  rewrite emitted_bind, Hc by framed_auto.
  rewrite emitted_bind, Hm by framed_auto.
  rewrite emitted_bind, Ht by framed_auto.
  rewrite emitted_bind, Hs by framed_auto.
  change (emitted (ret _)) with (@nil LogRecord).
  by rewrite app_nil_r.
Qed.

(** X5: the snapshot is assembled from one call of each source: every
    field is what its source returned on this tick, the timestamp is the
    clock's, and the log of the collector is the log of the CPU source,
    then of the memory source, then of the temperature source, then of
    the service queries. *)
Theorem snapshot_assembled_from_sources (env : Env) (metrics : Metrics) :
  outcome (get_all_metrics env) = Ok metrics ->
  timestamp metrics = now_isoformat env
  /\ outcome (get_cpu_metrics env) = Ok (cpu metrics)
  /\ outcome (get_memory_metrics env) = Ok (memory metrics)
  /\ outcome (get_temperature env) = Ok (temperature metrics)
  /\ outcome (check_dev_services env) = Ok (services metrics)
  /\ emitted (get_all_metrics env) =
       emitted (get_cpu_metrics env) ++ emitted (get_memory_metrics env)
       ++ emitted (get_temperature env) ++ emitted (check_dev_services env).
Proof.
  intros Hall.
  destruct (collected_fields env metrics Hall) as (Hts & Hc & Hm & Ht & Hs).
  repeat split; try assumption.
  by apply collected_log with metrics.
Qed.

Lemma snapshot_assembled_from_sources_witness :
  outcome (get_all_metrics host_memory_down) = Ok snapshot_memory_absent
  /\ outcome (get_memory_metrics host_memory_down) = Ok (memory snapshot_memory_absent)
  /\ length (emitted (get_all_metrics host_memory_down)) = 2%nat.
Proof.
  assert (Hrun : outcome (get_all_metrics host_memory_down) = Ok snapshot_memory_absent)
    by (vm_compute; reflexivity).
  split; [exact Hrun|].
  destruct (snapshot_assembled_from_sources host_memory_down _ Hrun)
    as (_ & _ & Hm & _ & _ & Hlog).
  split; [exact Hm|].
  rewrite Hlog. reflexivity.
Defined.

Lemma errors_at_most_nil (n : nat) : errors_at_most n [].
Proof. split; [constructor|simpl; lia]. Qed.

Lemma errors_at_most_app (n1 n2 : nat) (l1 l2 : list LogRecord) :
  errors_at_most n1 l1 -> errors_at_most n2 l2 -> errors_at_most (n1 + n2) (l1 ++ l2).
Proof.
  intros [H1 L1] [H2 L2]. split.
  - apply Forall_app. by split.
  - rewrite length_app. lia.
Qed.

Lemma errors_at_most_bind {A B} (m : M A) (k : A -> M B) (n1 n2 : nat) :
  framed m -> (forall a, framed (k a)) ->
  errors_at_most n1 (emitted m) ->
  (forall a, errors_at_most n2 (emitted (k a))) ->
  errors_at_most (n1 + n2) (emitted (bind m k)).
Proof.
  intros Hm Hk H1 H2. rewrite emitted_bind by done.
  apply errors_at_most_app; [done|].
  destruct (outcome m); [apply H2|apply errors_at_most_nil].
Qed.

Lemma errors_at_most_one (what : string) (l : list LogRecord) :
  l = [] \/ (exists e, l = [error_record what e]) -> errors_at_most 1 l.
Proof.
  intros [->|[e ->]]; [apply errors_at_most_nil|].
  split; [by repeat constructor|simpl; lia].
Qed.

Lemma check_service_log_cases (env : Env) (service : string)
    (st : list (string * bool)) :
  errors_at_most 1 (emitted (check_service env service st)).
Proof.
  unfold check_service, subprocess_run, run_outcome.
  destruct (spawn env _) as [d rc out|e]; run_source.
  all: split; [by repeat constructor|simpl; lia].
Qed.

Lemma check_services_log (env : Env) (todo : list string) :
  forall st, errors_at_most (length todo) (emitted (check_services env todo st)).
Proof.
  induction todo as [|service rest IH]; intros st; cbn [check_services length].
  - apply errors_at_most_nil.
  - apply (errors_at_most_bind _ _ 1 (length rest));
      [apply framed_check_service|intros; apply framed_check_services
      |apply check_service_log_cases|apply IH].
Qed.

Lemma collector_log_bound (env : Env) :
  errors_at_most 7 (emitted (get_all_metrics env)).
Proof.
  change (errors_at_most (1 + (1 + (1 + (4 + 0)))) (emitted (get_all_metrics env))).
  unfold get_all_metrics.
  apply errors_at_most_bind; [framed_auto|framed_auto| |intros c].
  { eapply errors_at_most_one, cpu_log_cases. }
  apply errors_at_most_bind; [framed_auto|framed_auto| |intros m].
  { eapply errors_at_most_one, memory_log_cases. }
  apply errors_at_most_bind; [framed_auto|framed_auto| |intros t].
  { eapply errors_at_most_one, temperature_log_cases. }
  apply errors_at_most_bind; [framed_auto|framed_auto| |intros sv].
  { apply (check_services_log env dev_services []). }
  apply errors_at_most_nil.
Qed.

Lemma collector_logs_nothing_else (env : Env) :
  Forall (fun r => levelname r = ERROR) (emitted (get_all_metrics env)).
Proof. apply collector_log_bound. Qed.

(** X6: whatever the host does, the collector lets no [Exception] out,
    and all it writes are error records: at most seven on a tick, one
    for each source and one for each service. *)
Theorem collector_logs_only_errors (env : Env) :
  (forall e, outcome (get_all_metrics env) = Raise e -> is_Exception e = false)
  /\ Forall (fun r => levelname r = ERROR) (emitted (get_all_metrics env))
  /\ (length (emitted (get_all_metrics env)) <= 7)%nat.
Proof.
  split; [apply collector_contains_errors|].
  apply collector_log_bound.
Qed.

(** ** Further properties: the alert rules *)

Lemma temperature_alerts_emitted (metrics : Metrics) :
  alerts HighTemperature (emitted (alert_rules metrics)) = temperature_alerts metrics.
Proof.
  rewrite alert_rules_emitted, alerts_app.
  replace (alerts HighTemperature
             (match memory metrics !! "memory_used_percent"%string with
              | Some used => _
              | None => _
              end))
    with (@nil LogRecord).
  - rewrite app_nil_r. unfold temperature_alerts.
    destruct (temperature metrics) as [t|]; [|done].
    by destruct (80 <? t)%float.
  - destruct (memory metrics !! "memory_used_percent"%string) as [used|]; [|done].
    rewrite alerts_app.
    destruct (alerts_service_down (down (services metrics))) as (_ & -> & _).
    by destruct (gt_int used 90).
Qed.

Lemma alert_rules_warnings (metrics : Metrics) :
  Forall (fun r => levelname r = WARNING) (emitted (alert_rules metrics)).
Proof.
  rewrite alert_rules_emitted. apply Forall_app. split.
  - unfold temperature_alerts. destruct (temperature metrics) as [t|]; [|constructor].
    destruct (80 <? t)%float; by repeat constructor.
  - destruct (memory metrics !! "memory_used_percent"%string) as [used|]; [|constructor].
    apply Forall_app. split.
    + destruct (gt_int used 90); by repeat constructor.
    + induction (down (services metrics)); by constructor.
Qed.

Lemma down_spec (sv : list (string * bool)) (service : string) :
  In service (down sv) <-> In (service, false) sv.
Proof.
  unfold down. rewrite in_map_iff. split.
  - intros ([k b] & <- & Hin). apply List.filter_In in Hin as [Hin Hb].
    simpl in *. by destruct b.
  - intros Hin. exists (service, false). split; [done|].
    apply List.filter_In. by split.
Qed.

(** X7: the memory rule.  On every snapshot whose memory figure is the
    float [x], the high-memory warning is written exactly when [x] is
    strictly above 90.0, and then once; the evaluation completes. *)
Theorem high_memory_rule (metrics : Metrics) (x : float) :
  memory metrics !! "memory_used_percent"%string = Some (PyFloat x) ->
  alerts HighMemory (emitted (alert_rules metrics)) =
    (if (90 <? x)%float
     then [{| levelname := WARNING;
              message := [Text "High memory usage detected!"] |}]
     else [])
  /\ outcome (alert_rules metrics) = Ok tt.
Proof.
  intros Hused. rewrite alert_rules_emitted, alert_rules_outcome, Hused.
  split; [|done].
  rewrite !alerts_app, alerts_after_temperature by done.
  destruct (alerts_service_down (down (services metrics))) as (_ & _ & ->).
  rewrite memory_test. by destruct (90 <? x)%float.
Qed.

Lemma high_memory_rule_witness :
  (alerts HighMemory (emitted (alert_rules snapshot_memory_full)) = [high_memory]
   /\ outcome (alert_rules snapshot_memory_full) = Ok tt)
  /\ (alerts HighMemory (emitted (alert_rules snapshot_memory_at_threshold)) = []
      /\ outcome (alert_rules snapshot_memory_at_threshold) = Ok tt).
Proof.
  split.
  - apply (high_memory_rule snapshot_memory_full 95). reflexivity.
  - apply (high_memory_rule snapshot_memory_at_threshold 90). reflexivity.
Defined.

(** X8: with the memory figure present all the rules are evaluated, each
    on its own: the log gets the temperature warning (if any), then the
    memory warning (if any), then one warning for each service that is
    down, in the order of the snapshot, and none for a service that is
    up; all are warnings, at most two more than there are services. *)
Theorem alert_sequence (metrics : Metrics) (used : pyval) :
  memory metrics !! "memory_used_percent"%string = Some used ->
  emitted (alert_rules metrics) =
    alerts HighTemperature (emitted (alert_rules metrics))
    ++ alerts HighMemory (emitted (alert_rules metrics))
    ++ alerts ServiceDown (emitted (alert_rules metrics))
  /\ alerts ServiceDown (emitted (alert_rules metrics)) =
       List.map
         (fun service =>
            {| levelname := WARNING;
               message := [Text "Service "; StrArg service; Text " is not running!"] |})
         (down (services metrics))
  /\ (forall service, In service (down (services metrics)) <->
                      In (service, false) (services metrics))
  /\ Forall (fun r => levelname r = WARNING) (emitted (alert_rules metrics))
  /\ (length (emitted (alert_rules metrics)) <= 2 + length (services metrics))%nat
  /\ outcome (alert_rules metrics) = Ok tt.
Proof.
  intros Hused.
  assert (Hsv : alerts ServiceDown (emitted (alert_rules metrics)) =
                List.map service_down (down (services metrics))).
  { rewrite alert_rules_emitted, Hused.
    rewrite !alerts_app, alerts_after_temperature by done.
    destruct (alerts_service_down (down (services metrics))) as (-> & _ & _).
    by destruct (gt_int used 90). }
  assert (Hmem : alerts HighMemory (emitted (alert_rules metrics)) =
                 if gt_int used 90 then [high_memory] else []).
  { rewrite alert_rules_emitted, Hused.
    rewrite !alerts_app, alerts_after_temperature by done.
    destruct (alerts_service_down (down (services metrics))) as (_ & _ & ->).
    by destruct (gt_int used 90). }
  split; [|split; [exact Hsv|split; [apply down_spec|split; [apply alert_rules_warnings|]]]].
  - rewrite Hsv, Hmem, temperature_alerts_emitted.
    by rewrite alert_rules_emitted, Hused.
  - split; [|by rewrite alert_rules_outcome, Hused].
    rewrite alert_rules_emitted, Hused, !length_app, length_map.
    assert (length (down (services metrics)) <= length (services metrics))%nat.
    { unfold down. rewrite length_map. apply List.filter_length_le. }
    assert (length (temperature_alerts metrics) <= 1)%nat.
    { unfold temperature_alerts. destruct (temperature metrics) as [t|]; [|simpl; lia].
      destruct (80 <? t)%float; simpl; lia. }
    destruct (gt_int used 90); simpl; lia.
Qed.

Lemma alert_sequence_witness :
  emitted (alert_rules snapshot_ok) =
    [service_down "docker"; service_down "nginx"]
  /\ outcome (alert_rules snapshot_ok) = Ok tt.
Proof.
  destruct (alert_sequence snapshot_ok (PyFloat 42.5) eq_refl)
    as (Hseq & Hsv & _ & _ & _ & Hout).
  split; [|exact Hout].
  rewrite Hseq. reflexivity.
Defined.

(** ** Further properties: one tick *)

Lemma time_sleep_emitted (env : Env) (interval : Z) :
  emitted (time_sleep env interval) = [].
Proof. unfold time_sleep. by destruct (interval <? 0). Qed.

Lemma time_sleep_outcome (env : Env) (interval : Z) :
  outcome (time_sleep env interval) =
    if interval <? 0 then Raise ValueError else sleep env.
Proof. unfold time_sleep. by destruct (interval <? 0). Qed.

Lemma tick_after_collection (env : Env) (interval : Z) (metrics : Metrics) :
  outcome (get_all_metrics env) = Ok metrics ->
  emitted (monitor_tick env interval) =
    emitted (get_all_metrics env) ++ [current_metrics metrics]
    ++ emitted (alert_rules metrics)
  /\ outcome (monitor_tick env interval) =
       match outcome (alert_rules metrics) with
       | Ok _ => outcome (time_sleep env interval)
       | Raise e => Raise e
       end.
Proof.
  intros Hall. unfold monitor_tick.
  rewrite emitted_bind, outcome_bind, Hall by framed_auto.
  rewrite emitted_bind, outcome_bind by framed_auto.
  change (emitted (logger INFO _)) with [current_metrics metrics].
  change (outcome (logger INFO _)) with (@Ok unit tt). cbv beta iota.
  rewrite emitted_bind, outcome_bind by framed_auto.
  rewrite time_sleep_emitted.
  destruct (outcome (alert_rules metrics)) as [[]|e]; by rewrite app_nil_r.
Qed.

Lemma tick_collection_raises (env : Env) (interval : Z) (e : exn) :
  outcome (get_all_metrics env) = Raise e ->
  emitted (monitor_tick env interval) = emitted (get_all_metrics env)
  /\ outcome (monitor_tick env interval) = Raise e.
Proof.
  intros Hall. unfold monitor_tick.
  rewrite emitted_bind, outcome_bind, Hall by framed_auto.
  by rewrite app_nil_r.
Qed.

Lemma memory_dict_cases (env : Env) (d : gmap string pyval) :
  outcome (get_memory_metrics env) = Ok d ->
  d = ∅ \/ exists x, d !! "memory_used_percent"%string = Some (PyFloat x).
Proof.
  unfold get_memory_metrics. run_source.
  all: intros Hd; simplify_eq; eauto.
Qed.

(** X9: the log of a tick whose collection returned: the error records
    of the collector, then one info record that carries the very
    snapshot the rules are evaluated on, then the warnings of the
    rules. *)
Theorem tick_log_shape (env : Env) (interval : Z) (metrics : Metrics) :
  outcome (get_all_metrics env) = Ok metrics ->
  emitted (monitor_tick env interval) =
    emitted (get_all_metrics env)
    ++ [{| levelname := INFO;
           message := [Text "Current metrics: "; MetricsArg metrics] |}]
    ++ emitted (alert_rules metrics)
  /\ Forall (fun r => levelname r = ERROR) (emitted (get_all_metrics env))
  /\ Forall (fun r => levelname r = WARNING) (emitted (alert_rules metrics)).
Proof.
  intros Hall. split; [apply (tick_after_collection env interval metrics Hall)|].
  split; [apply collector_logs_nothing_else|apply alert_rules_warnings].
Qed.

Lemma tick_log_shape_witness :
  outcome (get_all_metrics host_ok) = Ok snapshot_ok
  /\ List.map levelname (emitted (monitor_tick host_ok default_interval)) =
       [ERROR; INFO; WARNING; WARNING].
Proof.
  assert (Hrun : outcome (get_all_metrics host_ok) = Ok snapshot_ok)
    by (vm_compute; reflexivity).
  split; [exact Hrun|].
  rewrite (proj1 (tick_log_shape host_ok default_interval snapshot_ok Hrun)).
  vm_compute. reflexivity.
Defined.

(** X10: what can end the monitoring.  An [Exception] leaves a tick in
    three cases only: the memory source failed, and it is the
    [KeyError] of the memory rule; the interval is negative, and it is
    the [ValueError] of [time.sleep]; or [time.sleep] itself raised it.
    A failure of the CPU source, of the temperature source or of a
    service query never does. *)
Theorem tick_error_causes (env : Env) (interval : Z) (e : exn) :
  outcome (monitor_tick env interval) = Raise e ->
  is_Exception e = true ->
  (e = KeyError "memory_used_percent" /\ outcome (get_memory_metrics env) = Ok ∅)
  \/ (interval < 0 /\ e = ValueError)
  \/ (0 <= interval /\ sleep env = Raise e).
Proof.
  intros Htick He.
  destruct (outcome (get_all_metrics env)) as [metrics|e'] eqn:Hall.
  - destruct (tick_after_collection env interval metrics Hall) as [_ Hout].
    rewrite Hout, alert_rules_outcome in Htick.
    destruct (collected_fields env metrics Hall) as (_ & _ & Hmem & _).
    destruct (memory_dict_cases env _ Hmem) as [Hempty|[x Hx]].
    + left. rewrite Hempty in *. rewrite lookup_empty in Htick.
      split; [congruence|exact Hmem].
    + right. rewrite Hx, time_sleep_outcome in Htick.
      destruct (interval <? 0) eqn:Hneg.
      * left. apply Z.ltb_lt in Hneg. split; [exact Hneg|congruence].
      * right. apply Z.ltb_ge in Hneg. by split.
  - destruct (tick_collection_raises env interval e' Hall) as [_ Hout].
    rewrite Hout in Htick. injection Htick as ->.
    apply collector_contains_errors in Hall. congruence.
Qed.

Lemma tick_error_causes_witness :
  outcome (monitor_tick host_memory_down default_interval) =
    Raise (KeyError "memory_used_percent")
  /\ ((KeyError "memory_used_percent" = KeyError "memory_used_percent"
       /\ outcome (get_memory_metrics host_memory_down) = Ok ∅)
      \/ (default_interval < 0 /\ KeyError "memory_used_percent" = ValueError)
      \/ (0 <= default_interval
          /\ sleep host_memory_down = Raise (KeyError "memory_used_percent"))).
Proof.
  assert (Hrun : outcome (monitor_tick host_memory_down default_interval) =
                 Raise (KeyError "memory_used_percent"))
    by (vm_compute; reflexivity).
  split; [exact Hrun|].
  exact (tick_error_causes host_memory_down default_interval _ Hrun eq_refl).
Defined.

Lemma collector_returns (env : Env) :
  sources_answer env -> exists metrics, outcome (get_all_metrics env) = Ok metrics.
Proof.
  intros [H1 H2 H3 H4 H5 H6 H7 H8].
  destruct (get_cpu_metrics_returns env H1 H2 H3 H4) as (c & Hc & _).
  destruct (get_memory_metrics_returns env H5 H6) as (m & Hm & _).
  destruct (get_temperature_returns env H7) as (t & Ht & _).
  pose proof (check_services_outcome env dev_services H8 []) as Hs.
  fold (check_dev_services env) in Hs.
  eexists. unfold get_all_metrics.
  rewrite outcome_bind, Hc by framed_auto.
  rewrite outcome_bind, Hm by framed_auto.
  rewrite outcome_bind, Ht by framed_auto.
  rewrite outcome_bind, Hs by framed_auto.
  reflexivity.
Qed.

Lemma alerts_of_errors (k : AlertKind) (l : list LogRecord) :
  Forall (fun r => levelname r = ERROR) l -> alerts k l = [].
Proof.
  induction 1 as [|r l Hr _ IH]; [done|].
  unfold alerts in *. cbn [List.filter]. rewrite IH.
  unfold is_alert, alert_kind. by rewrite Hr.
Qed.

Lemma temperature_reading (env : Env) (content : string) (millis : float) :
  read_temp env = Ok content ->
  py_float (strip content) = Ok millis ->
  outcome (get_temperature env) = Ok (Some (py_round (millis / 1000) 2)).
Proof.
  intros Hread Hfloat. unfold get_temperature. run_source; congruence.
Qed.

(** X11: from the thermal file to the warning.  When the file holds a
    number, the tick writes the high-temperature warning exactly when
    that number, divided by 1000 and rounded to two decimals, is above
    80.0, whatever the other sources do: also on the tick in which the
    memory source fails and the monitoring ends. *)
Theorem hot_board_reported (env : Env) (interval : Z)
    (content : string) (millis : float) :
  sources_answer env ->
  read_temp env = Ok content ->
  py_float (strip content) = Ok millis ->
  alerts HighTemperature (emitted (monitor_tick env interval)) =
    (if (80 <? py_round (millis / 1000) 2)%float
     then [{| levelname := WARNING;
              message := [Text "High temperature detected: ";
                          FloatArg (py_round (millis / 1000) 2);
                          Text (String degree_sign "C")] |}]
     else []).
Proof.
  intros Hanswer Hread Hfloat.
  destruct (collector_returns env Hanswer) as [metrics Hall].
  destruct (tick_after_collection env interval metrics Hall) as [-> _].
  destruct (collected_fields env metrics Hall) as (_ & _ & _ & Ht & _).
  rewrite (temperature_reading env content millis Hread Hfloat) in Ht.
  injection Ht as Ht.
  rewrite !alerts_app, temperature_alerts_emitted.
  rewrite alerts_of_errors by apply collector_logs_nothing_else.
  unfold temperature_alerts. rewrite <- Ht. reflexivity.
Qed.

Lemma host_hot_memory_down_answers : sources_answer host_hot_memory_down.
Proof.
  split; try exact I; try reflexivity; try (intros n; exact I).
  intros service e Hin.
  simpl in Hin. destruct Hin as [<-|[<-|[<-|[<-|[]]]]]; vm_compute.
  all: intros [= <-]; reflexivity.
Defined.

Lemma hot_board_reported_witness :
  sources_answer host_hot_memory_down
  /\ outcome (monitor_tick host_hot_memory_down default_interval) =
       Raise (KeyError "memory_used_percent")
  /\ alerts HighTemperature (emitted (monitor_tick host_hot_memory_down default_interval)) =
       [high_temperature 85.3].
Proof.
  split; [exact host_hot_memory_down_answers|].
  split; [vm_compute; reflexivity|].
  exact (hot_board_reported host_hot_memory_down default_interval
           ("85300" ++ newline)%string 85300%float
           host_hot_memory_down_answers eq_refl eq_refl).
Defined.



(** ** Further properties: the run *)



Lemma monitor_loop_emitted_ok (ticks : list Env) (interval : Z) :
  (forall env, In env ticks -> outcome (monitor_tick env interval) = Ok tt) ->
  emitted (monitor_loop ticks interval) =
    concat (List.map (fun env => emitted (monitor_tick env interval)) ticks).
Proof.
  induction ticks as [|env later IH]; intros Hticks; [done|].
  cbn [monitor_loop List.map concat].
  rewrite emitted_bind;
    [|apply framed_monitor_tick|intros; apply framed_monitor_loop].
  rewrite (Hticks env) by (simpl; tauto).
  rewrite IH; [done|]. intros env' Hin. apply Hticks. simpl. tauto.
Qed.

Lemma alerts_concat (k : AlertKind) (ls : list (list LogRecord)) :
  alerts k (concat ls) = concat (List.map (alerts k) ls).
Proof.
  induction ls as [|l ls IH]; [done|].
  cbn [concat List.map]. by rewrite alerts_app, IH.
Qed.

(** X14: ticks do not know of each other.  While every tick completes,
    the log of the run is the start record followed by the logs of the
    ticks, one after the other, and the monitoring is still running;
    so a condition that lasts is reported anew on every tick: the
    warnings of a kind in the run are those of the ticks, all of them. *)
Theorem run_log_is_concatenation (ticks : list Env) (interval : Z)
    (l : list LogRecord) :
  (forall env, In env ticks -> outcome (monitor_tick env interval) = Ok tt) ->
  start_monitoring ticks interval l =
    (l ++ [{| levelname := INFO;
              message := [Text "Starting development environment monitoring"] |}]
       ++ concat (List.map (fun env => emitted (monitor_tick env interval)) ticks),
     Running)
  /\ (forall k,
        alerts k (emitted (monitor_loop ticks interval)) =
          concat (List.map (fun env => alerts k (emitted (monitor_tick env interval)))
                    ticks)).
Proof.
  intros Hticks. split.
  - rewrite start_monitoring_unfold, (monitor_loop_runs ticks interval Hticks).
    by rewrite (monitor_loop_emitted_ok ticks interval Hticks).
  - intros k. rewrite (monitor_loop_emitted_ok ticks interval Hticks).
    by rewrite alerts_concat, List.map_map.
Qed.

Lemma run_log_is_concatenation_witness :
  (forall env, In env [host_ok; host_ok; host_ok] ->
     outcome (monitor_tick env default_interval) = Ok tt)
  /\ alerts ServiceDown
       (emitted (monitor_loop [host_ok; host_ok; host_ok] default_interval)) =
       [service_down "docker"; service_down "nginx";
        service_down "docker"; service_down "nginx";
        service_down "docker"; service_down "nginx"].
Proof.
  assert (Hticks : forall env, In env [host_ok; host_ok; host_ok] ->
                     outcome (monitor_tick env default_interval) = Ok tt).
  { intros env Hin. simpl in Hin.
    destruct Hin as [<-|[<-|[<-|[]]]]; vm_compute; reflexivity. }
  split; [exact Hticks|].
  rewrite (proj2 (run_log_is_concatenation [host_ok; host_ok; host_ok]
                    default_interval [] Hticks) ServiceDown).
  vm_compute. reflexivity.
Defined.






(** ** Further properties: the script *)

Lemma monitor_loop_first_raise (ticks : list Env) (interval : Z) (e : exn) :
  outcome (monitor_loop ticks interval) = Raise e ->
  exists before env later,
    ticks = before ++ env :: later
    /\ outcome (monitor_loop before interval) = Ok tt
    /\ outcome (monitor_tick env interval) = Raise e.
Proof.
  induction ticks as [|first rest IH]; [done|].
  cbn [monitor_loop].
  rewrite outcome_bind;
    [|apply framed_monitor_tick|intros; apply framed_monitor_loop].
  destruct (outcome (monitor_tick first interval)) as [[]|e'] eqn:Hfirst.
  - intros Hrest. destruct (IH Hrest) as (before & env & later & -> & Hb & He).
    exists (first :: before), env, later. split; [done|]. split; [|done].
    cbn [monitor_loop].
    rewrite outcome_bind;
      [|apply framed_monitor_tick|intros; apply framed_monitor_loop].
    by rewrite Hfirst.
  - intros [= ->]. by exists [], first, rest.
Qed.

Lemma main_unfold (ticks : list Env) (l : list LogRecord) :
  main (Ok tt) ticks l =
    start_monitoring ticks default_interval
      (l ++ [{| levelname := INFO;
                message := [Text "Initializing Development Environment Monitor"] |};
             {| levelname := INFO;
                message := [Text "Monitor initialized successfully"] |}]).
Proof.
  unfold main, init, bind, lift, logger, ret. simpl.
  by rewrite <- app_assoc.
Qed.

(** X16: the script.  When [dev_monitor.log] cannot be opened the
    constructor's exception leaves the script: nothing is logged and no
    tick runs.  Otherwise the script starts the monitoring with an
    interval of 60 seconds, and it comes to an end only at a tick on
    which somebody pressed Ctrl-C, or the memory source failed, or
    [time.sleep] raised; never because of the interval, and never
    because of the CPU source, the thermal file or a service. *)
Theorem script_ends_only_on (ticks : list Env) (l : list LogRecord) :
  (forall e, main (Raise e) ticks l = (l, Propagated e))
  /\ (snd (main (Ok tt) ticks l) = Returned ->
      exists before env later,
        ticks = before ++ env :: later
        /\ outcome (monitor_loop before default_interval) = Ok tt
        /\ (outcome (monitor_tick env default_interval) = Raise KeyboardInterrupt
            \/ (outcome (monitor_tick env default_interval) =
                  Raise (KeyError "memory_used_percent")
                /\ outcome (get_memory_metrics env) = Ok ∅)
            \/ (exists e, is_Exception e = true /\ sleep env = Raise e
                          /\ outcome (monitor_tick env default_interval) = Raise e))).
Proof.
  split; [reflexivity|].
  rewrite main_unfold, start_monitoring_unfold. cbv zeta.
  destruct (outcome (monitor_loop ticks default_interval)) as [[]|e] eqn:Hloop;
    [discriminate|].
  intros Hret.
  destruct (monitor_loop_first_raise ticks default_interval e Hloop)
    as (before & env & later & Hticks & Hbefore & Htick).
  exists before, env, later. split; [exact Hticks|]. split; [exact Hbefore|].
  destruct (is_Exception e) eqn:He.
  - destruct (tick_error_causes env default_interval e Htick He)
      as [[-> Hmem]|[[Hneg _]|[_ Hsleep]]].
    + right. left. by split.
    + unfold default_interval in Hneg. lia.
    + right. right. by exists e.
  - destruct e; try discriminate He; [by left|].
    simpl in Hret. discriminate Hret.
Qed.

Lemma script_ends_only_on_witness :
  snd (main (Ok tt) [host_ok; host_interrupted_sleeping; host_ok] []) = Returned
  /\ exists before env later,
       [host_ok; host_interrupted_sleeping; host_ok] = before ++ env :: later
       /\ outcome (monitor_loop before default_interval) = Ok tt
       /\ (outcome (monitor_tick env default_interval) = Raise KeyboardInterrupt
           \/ (outcome (monitor_tick env default_interval) =
                 Raise (KeyError "memory_used_percent")
               /\ outcome (get_memory_metrics env) = Ok ∅)
           \/ (exists e, is_Exception e = true /\ sleep env = Raise e
                         /\ outcome (monitor_tick env default_interval) = Raise e)).
Proof.
  assert (Hret : snd (main (Ok tt) [host_ok; host_interrupted_sleeping; host_ok] []) =
                 Returned)
    by (vm_compute; reflexivity).
  split; [exact Hret|].
  exact (proj2 (script_ends_only_on [host_ok; host_interrupted_sleeping; host_ok] [])
           Hret).
Defined.
